(** * GPTbuilderauto: executor, deployer, monitor and generator

    A shallow embedding of the four components of the pipeline
    (gptbuilderauto/core, executor, deployer, monitor) together with the
    properties stated about them.

    Conventions.
    - A Python [str] is a [string], the string of its UTF-8 bytes. [lower]
      acts on the ASCII letters, which is all the tables of the program
      mention; [upper] maps the ASCII letters and takes what [str.upper]
      does outside ASCII as an argument.
    - A path is a [Path.t], with the parsing and joining rules of pathlib on
      POSIX.
    - A Python [dict] used as a table or a store is a [gmap].
    - A call that may raise returns a [result]; [try]/[except] is a match
      on it.
    - Whatever the program reads from its environment (the clock, the file
      system, child processes, the container runtime, the completion
      provider) is an explicit argument. *)

From Stdlib Require Import ZArith QArith Ascii String.
From stdpp Require Import base gmap strings list pretty.

Local Open Scope string_scope.
Local Open Scope Z_scope.

(* ===================================================================== *)
(** ** Python values: strings, exceptions *)
(* ===================================================================== *)

Module Py.

(** [str.lower], on ASCII letters. *)
Definition lower_ascii (c : ascii) : ascii :=
  let n := N_of_ascii c in
  if ((65 <=? n) && (n <=? 90))%N then ascii_of_N (n + 32) else c.

Definition upper_ascii (c : ascii) : ascii :=
  let n := N_of_ascii c in
  if ((97 <=? n) && (n <=? 122))%N then ascii_of_N (n - 32) else c.

Fixpoint lower (s : string) : string :=
  match s with
  | EmptyString => EmptyString
  | String c s' => String (lower_ascii c) (lower s')
  end.

(** An ASCII character: a byte below 128. Every other byte belongs to the
    UTF-8 form of a character outside ASCII. *)
Definition is_ascii (c : ascii) : bool := (N_of_ascii c <? 128)%N.

Fixpoint ascii_only (s : string) : bool :=
  match s with
  | EmptyString => true
  | String c s' => is_ascii c && ascii_only s'
  end.

(** [str.upper] works character by character, whatever stands around the
    character. An ASCII character is mapped here. What it makes of a
    stretch of characters outside ASCII (the dotless i becomes I, the sharp
    s becomes SS, ...) is the argument [table]; [pending] is the stretch
    read so far. *)
Definition upper_stretch (table : string → string) (pending : string) : string :=
  match pending with
  | EmptyString => EmptyString
  | _ => table pending
  end.

Fixpoint upper_from (table : string → string) (pending s : string) : string :=
  match s with
  | EmptyString => upper_stretch table pending
  | String c s' =>
      if is_ascii c
      then upper_stretch table pending +:+ String (upper_ascii c) (upper_from table "" s')
      else upper_from table (pending +:+ String c "") s'
  end.

Definition upper (table : string → string) (s : string) : string :=
  upper_from table "" s.

(** [needle in hay]: [needle] occurs as a contiguous substring. *)
Fixpoint contains (needle hay : string) : bool :=
  String.prefix needle hay ||
  match hay with
  | EmptyString => false
  | String _ hay' => contains needle hay'
  end.

(** [s.split(sep)] for a one-character separator: always at least one
    piece, empty pieces kept. *)
Fixpoint split (sep : ascii) (s : string) : list string :=
  match s with
  | EmptyString => [EmptyString]
  | String c s' =>
      if Ascii.eqb c sep then EmptyString :: split sep s'
      else match split sep s' with
           | [] => [String c EmptyString]
           | piece :: rest => String c piece :: rest
           end
  end.

(** [l[-n:]]: the last [n] elements (all of them when [l] is shorter). *)
Definition last_n {A} (n : nat) (l : list A) : list A :=
  drop (length l - n)%nat l.

(** [str(Path(a) / b)], for a relative single-component [b] and an [a]
    that pathlib leaves as it is. *)
Definition path_join (a b : string) : string := a +:+ "/" +:+ b.

(** [sep.join(l)] *)
Fixpoint join (sep : string) (l : list string) : string :=
  match l with
  | [] => ""
  | [x] => x
  | x :: l' => x +:+ sep +:+ join sep l'
  end.

(** pathlib's pure paths on POSIX. *)
Module Path.

Record t : Type := {
  root : string;              (* "", "/" or "//" *)
  parts : list string;        (* the components after the root *)
}.

(** The root of a path string: "//" for exactly two leading slashes, "/"
    for one and for three or more, none otherwise. *)
Definition root_of (s : string) : string :=
  match s with
  | String c1 (String c2 (String c3 _)) =>
      if negb (Ascii.eqb c1 "/") then ""
      else if negb (Ascii.eqb c2 "/") then "/"
      else if Ascii.eqb c3 "/" then "/" else "//"
  | String c1 (String c2 EmptyString) =>
      if negb (Ascii.eqb c1 "/") then "" else if Ascii.eqb c2 "/" then "//" else "/"
  | String c1 EmptyString => if Ascii.eqb c1 "/" then "/" else ""
  | EmptyString => ""
  end.

Definition is_component (c : string) : bool :=
  negb (String.eqb c "" || String.eqb c ".").

(** [Path(s)]: empty and "." components are dropped, ".." is kept. *)
Definition parse (s : string) : t :=
  {| root := root_of s; parts := List.filter is_component (split "/"%char s) |}.

(** [p / s]: an [s] with a root replaces [p]. *)
Definition joinpath (p : t) (s : string) : t :=
  let q := parse s in
  if String.eqb (root q) "" then {| root := root p; parts := (parts p ++ parts q)%list |}
  else q.

(** The entry [name] of the directory [p] as [iterdir] builds it: the name
    is one component, whatever it is. *)
Definition child (p : t) (name : string) : t :=
  {| root := root p; parts := (parts p ++ [name])%list |}.

(** [str(p)] *)
Definition str (p : t) : string :=
  match parts p with
  | [] => if String.eqb (root p) "" then "." else root p
  | _ => root p +:+ join "/" (parts p)
  end.

(** [p.name] *)
Definition name (p : t) : string := List.last (parts p) "".

End Path.

(** A naive [datetime], as [datetime.now()] returns it. *)
Record datetime : Type := {
  year : Z; month : Z; day : Z;
  hour : Z; minute : Z; second : Z;
  microsecond : Z;
}.

Definition valid_datetime (d : datetime) : Prop :=
  1 ≤ year d ≤ 9999 ∧ 1 ≤ month d ≤ 12 ∧ 1 ≤ day d ≤ 31
  ∧ 0 ≤ hour d ≤ 23 ∧ 0 ≤ minute d ≤ 59 ∧ 0 ≤ second d ≤ 59
  ∧ 0 ≤ microsecond d ≤ 999999.

(** Two readings of the clock within the same second. *)
Definition same_second (a b : datetime) : Prop :=
  year a = year b ∧ month a = month b ∧ day a = day b
  ∧ hour a = hour b ∧ minute a = minute b ∧ second a = second b.

(** The last decimal digit of [n], as a character. *)
Definition digit (n : Z) : ascii := ascii_of_N (48 + Z.to_N (n `mod` 10)).

(** Zero-padded decimal of width 2, 4 and 6. *)
Definition d2 (n : Z) : string := String (digit (n `div` 10)) (String (digit n) "").
Definition d4 (n : Z) : string := d2 (n `div` 100) +:+ d2 n.
Definition d6 (n : Z) : string := d2 (n `div` 10000) +:+ d4 n.

(** [d.strftime("%Y%m%d_%H%M%S")] *)
Definition strftime_stamp (d : datetime) : string :=
  d4 (year d) +:+ d2 (month d) +:+ d2 (day d) +:+ "_"
  +:+ d2 (hour d) +:+ d2 (minute d) +:+ d2 (second d).

(** [d.isoformat()] *)
Definition isoformat (d : datetime) : string :=
  d4 (year d) +:+ "-" +:+ d2 (month d) +:+ "-" +:+ d2 (day d) +:+ "T"
  +:+ d2 (hour d) +:+ ":" +:+ d2 (minute d) +:+ ":" +:+ d2 (second d)
  +:+ (if bool_decide (microsecond d = 0) then "" else "." +:+ d6 (microsecond d)).

(** The calendar of [datetime]: the day number of a date (1 for
    0001-01-01) and the microseconds of a reading since the start of day 0. *)
Definition is_leap (y : Z) : bool :=
  bool_decide (y `mod` 4 = 0) && (negb (bool_decide (y `mod` 100 = 0)) || bool_decide (y `mod` 400 = 0)).

Definition days_before_year (y : Z) : Z :=
  (y - 1) * 365 + (y - 1) `div` 4 - (y - 1) `div` 100 + (y - 1) `div` 400.

Definition days_in_month (y m : Z) : Z :=
  if bool_decide (m = 2) then (if is_leap y then 29 else 28)
  else if bool_decide (m = 4 ∨ m = 6 ∨ m = 9 ∨ m = 11) then 30
  else 31.

Definition days_before_month (y m : Z) : Z :=
  nth (Z.to_nat m) [0; 0; 31; 59; 90; 120; 151; 181; 212; 243; 273; 304; 334] 0
  + (if bool_decide (2 < m) && is_leap y then 1 else 0).

Definition ymd2ord (y m d : Z) : Z := days_before_year y + days_before_month y m + d.

Definition to_microseconds (d : datetime) : Z :=
  (((ymd2ord (year d) (month d) (day d) * 24 + hour d) * 60 + minute d) * 60 + second d)
  * 1000000 + microsecond d.

(** A reading the clock can give: the fields in range and the day within
    its month. *)
Definition real_datetime (d : datetime) : Prop :=
  valid_datetime d ∧ day d ≤ days_in_month (year d) (month d).

Definition check_fields (d : datetime) : bool :=
  bool_decide (1 ≤ year d ≤ 9999) && bool_decide (1 ≤ month d ≤ 12)
  && bool_decide (1 ≤ day d ≤ days_in_month (year d) (month d))
  && bool_decide (0 ≤ hour d ≤ 23) && bool_decide (0 ≤ minute d ≤ 59)
  && bool_decide (0 ≤ second d ≤ 59) && bool_decide (0 ≤ microsecond d ≤ 999999).

(** The order of naive readings: field by field. *)
Definition datetime_le (a b : datetime) : Prop :=
  year a < year b ∨ year a = year b ∧
  (month a < month b ∨ month a = month b ∧
  (day a < day b ∨ day a = day b ∧
  (hour a < hour b ∨ hour a = hour b ∧
  (minute a < minute b ∨ minute a = minute b ∧
  (second a < second b ∨ second a = second b ∧
   microsecond a ≤ microsecond b))))).

Definition digit_value (c : ascii) : option Z :=
  let n := N_of_ascii c in
  if ((48 <=? n) && (n <=? 57))%N then Some (Z.of_N (n - 48)) else None.

(** [n] decimal digits at the head of [s]: their value after [acc], and
    the rest of [s]. *)
Fixpoint take_digits (n : nat) (acc : Z) (s : string) : option (Z * string) :=
  match n with
  | O => Some (acc, s)
  | S n' =>
      match s with
      | String c s' => v ← digit_value c; take_digits n' (10 * acc + v) s'
      | EmptyString => None
      end
  end.

Definition take_char (c : ascii) (s : string) : option string :=
  match s with
  | String c' s' => if Ascii.eqb c c' then Some s' else None
  | EmptyString => None
  end.

(** The two layouts [isoformat] writes, YYYY-MM-DDTHH:MM:SS and
    YYYY-MM-DDTHH:MM:SS.ffffff. *)
Definition parse_isoformat (s : string) : option datetime :=
  '(y, s) ← take_digits 4 0 s; s ← take_char "-" s;
  '(m, s) ← take_digits 2 0 s; s ← take_char "-" s;
  '(d, s) ← take_digits 2 0 s; s ← take_char "T" s;
  '(h, s) ← take_digits 2 0 s; s ← take_char ":" s;
  '(mi, s) ← take_digits 2 0 s; s ← take_char ":" s;
  '(sec, s) ← take_digits 2 0 s;
  '(us, s) ← match s with
             | EmptyString => Some (0, EmptyString)
             | _ => s ← take_char "." s; take_digits 6 0 s
             end;
  match s with
  | EmptyString =>
      Some {| year := y; month := m; day := d; hour := h; minute := mi; second := sec;
              microsecond := us |}
  | _ => None
  end.

(** Exceptions, by the classes the program distinguishes. *)
Inductive exn : Type :=
| ValueError (msg : string)
| IndexError (msg : string)
| OSError (msg : string)
| TimeoutExpired (msg : string)
| Exception (msg : string).

(** [str(e)] *)
Definition str (e : exn) : string :=
  match e with
  | ValueError msg | IndexError msg | OSError msg
  | TimeoutExpired msg | Exception msg => msg
  end.

(** The outcome of a call that may raise an exception of type [E]. *)
Inductive result (E A : Type) : Type :=
| Ok (a : A)
| Raise (e : E).
Arguments Ok {E A} a.
Arguments Raise {E A} e.

Definition bind {E A B} (r : result E A) (k : A → result E B) : result E B :=
  match r with
  | Ok a => k a
  | Raise e => Raise e
  end.

(** [try: body except ... as e: handler(e)] *)
Definition try_except {E A} (body : result E A) (handler : E → A) : A :=
  match body with
  | Ok a => a
  | Raise e => handler e
  end.

(** A call whose exceptions are seen as a larger class. *)
Definition lift {E E' A} (f : E → E') (r : result E A) : result E' A :=
  match r with
  | Ok a => Ok a
  | Raise e => Raise (f e)
  end.

(** [datetime.fromisoformat], on the layouts [isoformat] writes; any other
    string is refused here (Python reads some further layouts), and the
    text of the error is not modelled. *)
Definition fromisoformat (s : string) : result exn datetime :=
  match parse_isoformat s with
  | Some d => if check_fields d then Ok d else Raise (ValueError "Invalid isoformat string")
  | None => Raise (ValueError "Invalid isoformat string")
  end.

(** [d - timedelta(hours=hours)], as the microseconds of the result; an
    [OverflowError] when the result leaves the years 1 to 9999. *)
Definition minus_hours (d : datetime) (hours : Z) : result exn Z :=
  let us := to_microseconds d - hours * 3600000000 in
  if bool_decide (1 ≤ us `div` 86400000000 ≤ 3652059) then Ok us
  else Raise (Exception "date value out of range").

End Py.

Import Py.

(** [x ← c; k] runs [c] and passes its value on, or re-raises. *)
#[global] Instance result_ret {E} : MRet (result E) := λ A, Ok.
#[global] Instance result_bind {E} : MBind (result E) := λ A B k r, bind r k.

(* ===================================================================== *)
(** ** executor/code_executor.py *)
(* ===================================================================== *)

Module CodeExecutor.

Record ExecutionResult : Type := {
  stdout : string;
  stderr : string;
  return_code : Z;
  success : bool;
}.

(** What a spawned child does when nobody stops it. After [elapsed] seconds
    it has exited and its two output pipes are at their end (a descendant
    that keeps a pipe open delays that); [out] and [err] are what text mode
    makes of the bytes written, the text or the error of decoding them. *)
Inductive child : Type :=
| Exits (elapsed : Q) (out err : result exn string) (returncode : Z)
| Hangs
| SpawnFails (e : exn).

Record CompletedProcess : Type := {
  cp_stdout : string;
  cp_stderr : string;
  returncode : Z;
}.

(** [subprocess.run(cmd, capture_output=True, text=True, timeout=t)]:
    when the output is not complete after [t] seconds the child is killed
    and [TimeoutExpired] is raised; a complete output is decoded, stdout
    first, and an error of decoding is raised. *)
Definition subprocess_run (c : child) (t : Z) : result exn CompletedProcess :=
  match c with
  | Exits elapsed out err rc =>
      if Qle_bool elapsed (inject_Z t)
      then out ← out; err ← err;
           Ok {| cp_stdout := out; cp_stderr := err; returncode := rc |}
      else Raise (TimeoutExpired "timed out")
  | Hangs => Raise (TimeoutExpired "timed out")
  | SpawnFails e => Raise e
  end.

(** What [containers.run] gives back: the logs as bytes (which may fail to
    decode), or some other object. *)
Inductive container_output : Type :=
| Bytes (decoded : result exn string)
| Object (repr : string).

(** An attribute of an exception as the handler reads it: reading it may
    raise (the object has no such attribute); what is read is false ([None],
    empty bytes), or true, and then [decoded] is the outcome of
    [.decode("utf-8")] on it. *)
Inductive attribute : Type :=
| Absent (e : exn)
| Falsy
| Truthy (decoded : result exn string).

(** [docker.errors.ContainerError], with its attributes [stdout], [stderr]
    and [exit_status] and its text, against every other exception. *)
Inductive docker_exn : Type :=
| ContainerError (e_stdout e_stderr : attribute) (exit_status : Z) (text : string)
| Other (e : exn).

Record run_request : Type := {
  image : string;
  command : list string;
  volume : string;            (* host directory bound to /workspace, mode ro *)
  working_dir : string;
  environment : gmap string string;
  remove : bool;
  detach : bool;
  mem_limit : string;
  network_disabled : bool;
}.

(** [os.unlink] fails with an [OSError] only; this is its message. *)
Definition os_error : Type := string.

(** The environment of an executor. *)
Record world : Type := {
  environ : gmap string string;
  docker_from_env : result exn ();
  (* NamedTemporaryFile(mode="w", suffix, delete=False), written with the code *)
  mktemp : string → string → result exn string;
  spawn : list string → gmap string string → child;
  unlink : string → result os_error ();
  (* TemporaryDirectory(), and its removal when the [with] block is left *)
  mkdtemp : result exn string;
  cleanup : string → result exn ();
  write_text : string → string → result exn ();
  containers_run : run_request → result docker_exn container_output;
}.

Record t : Type := {
  timeout : Z;
  use_docker : bool;
  enable_sandboxing : bool;
  docker_client : bool;       (* false: [None] *)
}.

Definition __init__ (w : world) (timeout : Z) (use_docker enable_sandboxing : bool) : t :=
  if use_docker then
    match docker_from_env w with
    | Ok _ =>
        {| timeout := timeout; use_docker := true;
           enable_sandboxing := enable_sandboxing; docker_client := true |}
    | Raise _ =>
        {| timeout := timeout; use_docker := false;
           enable_sandboxing := enable_sandboxing; docker_client := false |}
    end
  else
    {| timeout := timeout; use_docker := false;
       enable_sandboxing := enable_sandboxing; docker_client := false |}.

Definition extensions : gmap string string :=
  <["python" := "py"]> (<["javascript" := "js"]> (<["java" := "java"]>
    (<["go" := "go"]> (<["rust" := "rs"]> ∅)))).

Definition _get_extension (language : string) : string :=
  default "txt" (extensions !! lower language).

Definition _get_command (language file_path : string) (args : option (list string))
  : list string :=
  let args := default [] args in
  let commands : gmap string (list string) :=
    <["python" := (["python3"; file_path] ++ args)%list]>
      (<["javascript" := (["node"; file_path] ++ args)%list]> ∅) in
  default ["cat"; file_path] (commands !! lower language).

Definition _get_docker_image (language : string) : string :=
  let images : gmap string string :=
    <["python" := "python:3.11-slim"]> (<["javascript" := "node:18-slim"]> ∅) in
  default "python:3.11-slim" (images !! lower language).

Definition _get_container_command (language filename : string)
    (args : option (list string)) : list string :=
  let args := default [] args in
  let commands : gmap string (list string) :=
    <["python" := (["python3"; filename] ++ args)%list]>
      (<["javascript" := (["node"; filename] ++ args)%list]> ∅) in
  default ["cat"; filename] (commands !! lower language).

(** The [subprocess.run] call of [_execute_locally], for the temporary
    file [temp_file]. *)
Definition local_run (self : t) (w : world) (language temp_file : string)
    (args : option (list string)) (env_vars : option (gmap string string))
  : result exn CompletedProcess :=
  let cmd := _get_command language temp_file args in
  let env := default ∅ env_vars ∪ environ w in
  subprocess_run (spawn w cmd env) (timeout self).

Definition _execute_locally (self : t) (w : world) (code language : string)
    (args : option (list string)) (env_vars : option (gmap string string))
  : result exn ExecutionResult :=
  temp_file ← mktemp w ("." +:+ _get_extension language) code;
  let returned :=
    try_except
      (result ← local_run self w language temp_file args env_vars;
       Ok {| stdout := cp_stdout result;
             stderr := cp_stderr result;
             return_code := returncode result;
             success := bool_decide (returncode result = 0) |})
      (λ e,
         match e with
         | TimeoutExpired _ =>
             {| stdout := "";
                stderr := "Execution timeout after " +:+ pretty (timeout self) +:+ " seconds";
                return_code := -1;
                success := false |}
         | _ =>
             {| stdout := ""; stderr := str e; return_code := -1; success := false |}
         end) in
  (* finally: os.unlink(temp_file), an OSError is swallowed *)
  match unlink w temp_file with
  | Ok _ | Raise _ => Ok returned
  end.

(** The [try] block of [_execute_in_docker]. *)
Definition docker_run (self : t) (w : world) (code language : string)
    (args : option (list string)) (env_vars : option (gmap string string))
  : result docker_exn ExecutionResult :=
  let image := _get_docker_image language in
  tmpdir ← lift Other (mkdtemp w);
  let in_tmpdir :=
    let code_file := path_join tmpdir ("code." +:+ _get_extension language) in
    _ ← lift Other (write_text w code_file code);
    container ← containers_run w
      {| image := image;
         command := _get_container_command language
                      ("code." +:+ _get_extension language) args;
         volume := tmpdir;
         working_dir := "/workspace";
         environment := default ∅ env_vars;
         remove := true;
         detach := false;
         mem_limit := "512m";
         network_disabled := if enable_sandboxing self then true else false |};
    out ← match container with
          | Bytes decoded => lift Other decoded
          | Object repr => Ok repr
          end;
    Ok {| stdout := out; stderr := ""; return_code := 0; success := true |} in
  (* leaving the [with] block removes the directory *)
  match cleanup w tmpdir with
  | Ok _ => in_tmpdir
  | Raise e => Raise (Other e)
  end.

(** [a.decode("utf-8") if a else otherwise] *)
Definition decode_or (a : attribute) (otherwise : string) : result exn string :=
  match a with
  | Absent e => Raise e
  | Falsy => Ok otherwise
  | Truthy decoded => decoded
  end.

(** An exception raised while the handler of the container error builds
    its result leaves the function: the second handler belongs to the same
    [try]. *)
Definition _execute_in_docker (self : t) (w : world) (code language : string)
    (args : option (list string)) (env_vars : option (gmap string string))
  : result exn ExecutionResult :=
  if negb (docker_client self) then
    _execute_locally self w code language args env_vars
  else
    match docker_run self w code language args env_vars with
    | Ok returned => Ok returned
    | Raise (ContainerError e_stdout e_stderr exit_status text) =>
        out ← decode_or e_stdout "";
        err ← decode_or e_stderr text;
        Ok {| stdout := out; stderr := err; return_code := exit_status; success := false |}
    | Raise (Other e) =>
        Ok {| stdout := ""; stderr := str e; return_code := -1; success := false |}
    end.

Definition execute_python (self : t) (w : world) (code : string)
    (args : option (list string)) (env_vars : option (gmap string string))
  : result exn ExecutionResult :=
  if use_docker self then _execute_in_docker self w code "python" args env_vars
  else _execute_locally self w code "python" args env_vars.

(** [containers.run] raises [ContainerError] only for a container that
    exited with a non-zero status. *)
Definition docker_contract (w : world) : Prop :=
  ∀ req out err status text,
    containers_run w req = Raise (ContainerError out err status text) → status ≠ 0.

(** The child outlives a timeout of [t] seconds. *)
Definition runs_longer_than (c : child) (t : Z) : Prop :=
  match c with
  | Exits elapsed _ _ _ => (inject_Z t < elapsed)%Q
  | Hangs => True
  | SpawnFails _ => False
  end.

(** The invariant of an execution result. *)
Definition success_is_zero_exit (r : ExecutionResult) : Prop :=
  success r = bool_decide (return_code r = 0).

(** Two environments to run the definitions on: in [sleepy] every child
    sleeps for ten seconds and the container runtime is absent; in
    [failing_container] the runtime is there, every container exits with
    status 3, and the error carries no stdout and the bytes of stderr. *)
Definition sleepy : world := {|
  environ := {["PATH" := "/usr/bin"]};
  docker_from_env := Raise (Exception "Error while fetching server API version");
  mktemp := λ suffix _, Ok ("/tmp/tmpk3x" +:+ suffix);
  spawn := λ _ _, Exits 10 (Ok "") (Ok "") 0;
  unlink := λ _, Ok ();
  mkdtemp := Raise (OSError "unused");
  cleanup := λ _, Ok ();
  write_text := λ _ _, Ok ();
  containers_run := λ _, Raise (Other (Exception "unused"));
|}.

Definition failing_container : world := {|
  environ := ∅;
  docker_from_env := Ok ();
  mktemp := λ suffix _, Ok ("/tmp/tmpq7a" +:+ suffix);
  spawn := λ _ _, Exits 0 (Ok "") (Ok "") 0;
  unlink := λ _, Ok ();
  mkdtemp := Ok "/tmp/tmpd1";
  cleanup := λ _, Ok ();
  write_text := λ _ _, Ok ();
  containers_run := λ _,
    Raise (ContainerError Falsy (Truthy (Ok "Traceback")) 3
             "Command returned non-zero exit status 3");
|}.

(** [sleepy], with a temporary file that cannot be deleted. *)
Definition sleepy_undeletable : world := {|
  environ := environ sleepy;
  docker_from_env := docker_from_env sleepy;
  mktemp := mktemp sleepy;
  spawn := spawn sleepy;
  unlink := λ _, Raise "Permission denied";
  mkdtemp := mkdtemp sleepy;
  cleanup := cleanup sleepy;
  write_text := write_text sleepy;
  containers_run := containers_run sleepy;
|}.

(** An environment whose children print and exit at once. *)
Definition quick : world := {|
  environ := {["PATH" := "/usr/bin"]};
  docker_from_env := Raise (Exception "Error while fetching server API version");
  mktemp := λ suffix _, Ok ("/tmp/tmpz9c" +:+ suffix);
  spawn := λ _ _, Exits (1 # 10) (Ok "Hello, World!") (Ok "") 0;
  unlink := λ _, Ok ();
  mkdtemp := Raise (OSError "unused");
  cleanup := λ _, Ok ();
  write_text := λ _ _, Ok ();
  containers_run := λ _, Raise (Other (Exception "unused"));
|}.

(** [quick], with a child whose output is not UTF-8. *)
Definition garbled : world := {|
  environ := environ quick;
  docker_from_env := docker_from_env quick;
  mktemp := mktemp quick;
  spawn := λ _ _,
    Exits (1 # 10)
      (Raise (ValueError "'utf-8' codec can't decode byte 0xff in position 0: invalid start byte"))
      (Ok "") 0;
  unlink := unlink quick;
  mkdtemp := mkdtemp quick;
  cleanup := cleanup quick;
  write_text := write_text quick;
  containers_run := containers_run quick;
|}.

(** [failing_container] with an error that has no attribute [stdout], as
    the one of the docker package, and with one that reports status 0. *)
Definition no_stdout_container : world := {|
  environ := environ failing_container;
  docker_from_env := docker_from_env failing_container;
  mktemp := mktemp failing_container;
  spawn := spawn failing_container;
  unlink := unlink failing_container;
  mkdtemp := mkdtemp failing_container;
  cleanup := cleanup failing_container;
  write_text := write_text failing_container;
  containers_run := λ _,
    Raise (ContainerError
             (Absent (Exception "'ContainerError' object has no attribute 'stdout'"))
             (Truthy (Ok "Traceback")) 3 "Command returned non-zero exit status 3");
|}.

Definition zero_status_container : world := {|
  environ := environ failing_container;
  docker_from_env := docker_from_env failing_container;
  mktemp := mktemp failing_container;
  spawn := spawn failing_container;
  unlink := unlink failing_container;
  mkdtemp := mkdtemp failing_container;
  cleanup := cleanup failing_container;
  write_text := write_text failing_container;
  containers_run := λ _, Raise (ContainerError Falsy Falsy 0 "container failed");
|}.

(** A runtime whose containers print and exit with status 0. *)
Definition working_container : world := {|
  environ := ∅;
  docker_from_env := Ok ();
  mktemp := λ suffix _, Ok ("/tmp/tmpq7a" +:+ suffix);
  spawn := λ _ _, Exits 0 (Ok "") (Ok "") 0;
  unlink := λ _, Ok ();
  mkdtemp := Ok "/tmp/tmpd1";
  cleanup := λ _, Ok ();
  write_text := λ _ _, Ok ();
  containers_run := λ _, Ok (Bytes (Ok "Hello, World!"));
|}.

End CodeExecutor.

(* ===================================================================== *)
(** ** deployer/deployer.py *)
(* ===================================================================== *)

Module Deployer.

(** A metadata mapping, in insertion order. *)
Definition metadata : Type := list (string * string).

(** An entry of the deployment root: a plain file, or a directory with
    its files and its creation time. *)
Inductive node : Type :=
| File (content : string)
| Dir (files : gmap string string) (created : datetime).

(** The deployment root, by entry name. *)
Abbreviation filesystem := (gmap string node).

Inductive fs_op : Type :=
| Mkdir (name : string)
| WriteText (name file : string)
| ReadText (name file : string)
| Rmtree (name : string)
| Iterdir.

(** What the file system refuses (permissions, a full disk, ...), and
    the JSON codec. *)
Record world : Type := {
  denied : fs_op → option exn;
  json_dumps : metadata → string;
  json_loads : string → result exn metadata;
}.

(** File-system calls read and change the deployment root and may raise. *)
Definition M (A : Type) : Type := filesystem → result exn A * filesystem.

Definition ret {A} (a : A) : M A := λ fs, (Ok a, fs).
Definition raise {A} (e : exn) : M A := λ fs, (Raise e, fs).
Definition seq {A B} (c : M A) (k : A → M B) : M B :=
  λ fs, match c fs with
        | (Ok a, fs') => k a fs'
        | (Raise e, fs') => (Raise e, fs')
        end.
(** [try: body except Exception as e: handler(e)] *)
Definition catch {A} (body : M A) (handler : exn → M A) : M A :=
  λ fs, match body fs with
        | (Ok a, fs') => (Ok a, fs')
        | (Raise e, fs') => handler e fs'
        end.

Definition guard (w : world) (op : fs_op) : M () :=
  match denied w op with
  | Some e => raise e
  | None => ret ()
  end.

(** [dir.mkdir(parents=True, exist_ok=True)] *)
Definition mkdir (w : world) (name : string) (now : datetime) : M () :=
  seq (guard w (Mkdir name)) (λ _ fs,
    match fs !! name with
    | Some (Dir _ _) => (Ok (), fs)
    | Some (File _) => (Raise (OSError "File exists"), fs)
    | None => (Ok (), <[name := Dir ∅ now]> fs)
    end).

(** [(dir / file).write_text(text)] *)
Definition write_text (w : world) (name file text : string) : M () :=
  seq (guard w (WriteText name file)) (λ _ fs,
    match fs !! name with
    | Some (Dir files created) =>
        (Ok (), <[name := Dir (<[file := text]> files) created]> fs)
    | _ => (Raise (OSError "No such file or directory"), fs)
    end).

(** [shutil.rmtree(dir)]; when it fails the directory itself is still
    there. *)
Definition rmtree (w : world) (name : string) : M () :=
  seq (guard w (Rmtree name)) (λ _ fs,
    match fs !! name with
    | Some (Dir _ _) => (Ok (), delete name fs)
    | Some (File _) => (Raise (OSError "Not a directory"), fs)
    | None => (Raise (OSError "No such file or directory"), fs)
    end).

(** [dir.exists()] *)
Definition exists_ (name : string) : M bool :=
  λ fs, (Ok (bool_decide (is_Some (fs !! name))), fs).

(** [dir.iterdir()], in the order the file system gives. *)
Definition iterdir (w : world) : M (list (string * node)) :=
  seq (guard w Iterdir) (λ _ fs, (Ok (map_to_list fs), fs)).

Record t : Type := {
  deploy_path : string;
  provider : string;
}.

Inductive deploy_result : Type :=
| Deployed (deployment_name deployment_path code_file : string)
| Failed (deployment_name error : string).

Definition success (r : deploy_result) : bool :=
  match r with Deployed _ _ _ => true | Failed _ _ => false end.

Definition deployment_name_of (r : deploy_result) : string :=
  match r with Deployed n _ _ | Failed n _ => n end.

Definition extensions : gmap string string :=
  <["python" := "py"]> (<["javascript" := "js"]> (<["java" := "java"]>
    (<["go" := "go"]> (<["rust" := "rs"]> ∅)))).

Definition _get_extension (language : string) : string :=
  default "txt" (extensions !! lower language).

(** A mapping is true when it is there and not empty. *)
Definition truthy (md : option metadata) : bool :=
  match md with
  | Some (_ :: _) => true
  | _ => false
  end.

Definition newline : string := String (ascii_of_N 10) "".

Definition _generate_readme (name language : string) (md : option metadata)
    (now : datetime) : string :=
  let readme :=
    "# " +:+ name +:+ newline +:+ newline
    +:+ "Automatically generated and deployed by GPTbuilderauto" +:+ newline +:+ newline
    +:+ "## Language" +:+ newline +:+ language +:+ newline +:+ newline
    +:+ "## Deployment Information" +:+ newline
    +:+ "- Deployed: " +:+ isoformat now +:+ newline in
  let readme :=
    if truthy md then
      foldl (λ readme kv, readme +:+ "- **" +:+ kv.1 +:+ "**: " +:+ kv.2 +:+ newline)
            (readme +:+ newline +:+ "## Metadata" +:+ newline) (default [] md)
    else readme in
  readme +:+ newline +:+ "## Usage" +:+ newline
  +:+ "Run the main file to execute the code." +:+ newline +:+ newline
  +:+ "---" +:+ newline
  +:+ "*Generated by GPTbuilderauto - Autonomous code creation, execution, deployment, and maintenance*"
  +:+ newline.

(** [deploy_code]; [now] is the clock when the name is derived, [later]
    when the README is written. *)
Definition deploy_code (self : t) (w : world) (now later : datetime)
    (code name language : string) (md : option metadata) : M deploy_result :=
  let timestamp := strftime_stamp now in
  let deployment_name := name +:+ "_" +:+ timestamp in
  let deployment_dir := path_join (deploy_path self) deployment_name in
  catch
    (seq (mkdir w deployment_name now) (λ _,
     let extension := _get_extension language in
     let code_file := path_join deployment_dir ("main." +:+ extension) in
     seq (write_text w deployment_name ("main." +:+ extension) code) (λ _,
     seq (if truthy md
          then write_text w deployment_name "metadata.json" (json_dumps w (default [] md))
          else ret ()) (λ _,
     let readme := _generate_readme name language md later in
     seq (write_text w deployment_name "README.md" readme) (λ _,
     ret (Deployed deployment_name deployment_dir code_file))))))
    (λ e, ret (Failed deployment_name (str e))).

Record deployment : Type := {
  name : string;
  path : string;
  created : string;
  metadata_of : metadata;
}.

(** The body of the loop of [list_deployments] for one entry: the record
    to append, nothing for a plain file, or an exception. *)
Definition list_item (self : t) (w : world) (item : string * node)
  : result exn (option deployment) :=
  match item.2 with
  | File _ => Ok None
  | Dir files ctime =>
      md ← match files !! "metadata.json" with
           | Some text =>
               match denied w (ReadText item.1 "metadata.json") with
               | Some e => Raise e
               | None => json_loads w text
               end
           | None => Ok []
           end;
      Ok (Some {| name := item.1;
                  path := path_join (deploy_path self) item.1;
                  created := isoformat ctime;
                  metadata_of := md |})
  end.

(** The loop: an exception ends it and keeps what was collected. *)
Fixpoint list_loop (self : t) (w : world) (items : list (string * node))
    (deployments : list deployment) : list deployment :=
  match items with
  | [] => deployments
  | item :: items =>
      match list_item self w item with
      | Ok (Some d) => list_loop self w items (deployments ++ [d])
      | Ok None => list_loop self w items deployments
      | Raise _ => deployments
      end
  end.

Definition list_deployments (self : t) (w : world) : M (list deployment) :=
  catch
    (seq (iterdir w) (λ items, ret (list_loop self w items [])))
    (λ _, ret []).

Definition delete_deployment (self : t) (w : world) (deployment_name : string) : M bool :=
  catch
    (seq (exists_ deployment_name) (λ found,
       if found then seq (rmtree w deployment_name) (λ _, ret true)
       else ret false))
    (λ _, ret false).

(** The value a call returns that cannot raise. *)
Definition returned {A} (d : A) (r : result exn A * filesystem) : A :=
  match r.1 with Ok a => a | Raise _ => d end.

Definition is_dir (fs : filesystem) (name : string) : Prop :=
  ∃ files created, fs !! name = Some (Dir files created).

(** Environments to run the definitions on: nothing is refused in
    [permissive]; in [locked] no directory can be removed. *)
Definition permissive : world := {|
  denied := λ _, None;
  json_dumps := λ md, "{}";
  json_loads := λ _, Ok [];
|}.

Definition locked : world := {|
  denied := λ op, match op with
                  | Rmtree _ => Some (OSError "Permission denied")
                  | _ => None
                  end;
  json_dumps := λ md, "{}";
  json_loads := λ _, Ok [];
|}.

Definition tmp : t := {| deploy_path := "/tmp/gptbuilder_deployments"; provider := "local" |}.

Definition noon : datetime :=
  {| year := 2024; month := 1; day := 5; hour := 12; minute := 0; second := 7;
     microsecond := 250000 |}.

Definition a_second_later : datetime :=
  {| year := 2024; month := 1; day := 5; hour := 12; minute := 0; second := 8;
     microsecond := 10 |}.

(** A deployment root with one deployment. *)
Definition one_deployment : filesystem :=
  <["app_20240105_120007" := Dir (<["main.py" := "print(1)"]> ∅) noon]> ∅.

(** The text of a file of a deployment directory. *)
Definition file_of (fs : filesystem) (name file : string) : option string :=
  match fs !! name with
  | Some (Dir files _) => files !! file
  | _ => None
  end.

(** The files and creation time a deployment starts from: those of the
    directory when it is there already, none otherwise. *)
Definition files_before (fs : filesystem) (name : string) (now : datetime)
  : gmap string string * datetime :=
  match fs !! name with
  | Some (Dir files created) => (files, created)
  | _ => (∅, now)
  end.

(** Nothing goes wrong while listing [fs]: the root can be read, and every
    metadata.json can be read and decoded. *)
Definition listing_ok (w : world) (fs : filesystem) : Prop :=
  denied w Iterdir = None
  ∧ ∀ name files created text,
      fs !! name = Some (Dir files created) → files !! "metadata.json" = Some text →
      denied w (ReadText name "metadata.json") = None ∧ ∃ md, json_loads w text = Ok md.

(** The names of the directories among the entries, in their order. *)
Definition dir_names (items : list (string * node)) : list string :=
  omap (λ item : string * node,
          match item.2 with Dir _ _ => Some item.1 | File _ => None end) items.

(** A record describes a directory: its path, its creation time and the
    decoded content of its metadata.json, or no metadata when it has none. *)
Definition describes (self : t) (w : world) (d : deployment)
    (files : gmap string string) (ctime : datetime) : Prop :=
  path d = path_join (deploy_path self) (name d)
  ∧ created d = isoformat ctime
  ∧ match files !! "metadata.json" with
    | Some text => json_loads w text = Ok (metadata_of d)
    | None => metadata_of d = []
    end.

(** What a git working tree lets through, and the names of its remotes. *)
Record git_world : Type := {
  repo_refused : string → option exn;              (* git.Repo(repo_path) *)
  git_write_refused : string → option exn;         (* file_path.write_text(code) *)
  add_refused : list string → option exn;          (* repo.index.add *)
  commit_refused : string → option exn;            (* repo.index.commit *)
  remote_names : string → list string;             (* repo.remotes *)
  push_refused : string → string → option exn;     (* remote.push(branch) *)
}.

(** What [deploy_to_git] has done to the working tree. *)
Inductive git_action : Type :=
| GitWrite (file_path text : string)
| GitAdd (paths : list string)
| GitCommit (message : string)
| GitPush (remote branch : string).

Inductive git_result : Type :=
| GitDeployed (deployment_name repo_path file_path branch : string)
| GitFailed (deployment_name error : string).

(** [deploy_to_git]: the actions performed, in order, and the result. *)
Definition deploy_to_git (self : t) (g : git_world)
    (code name repo_path branch language : string) : list git_action * git_result :=
  let failed (e : exn) := GitFailed name (str e) in
  match repo_refused g repo_path with
  | Some e => ([], failed e)
  | None =>
  let extension := _get_extension language in
  let file_path := path_join repo_path (name +:+ "." +:+ extension) in
  match git_write_refused g file_path with
  | Some e => ([], failed e)
  | None =>
  let done := [GitWrite file_path code] in
  match add_refused g [file_path] with
  | Some e => (done, failed e)
  | None =>
  let done := (done ++ [GitAdd [file_path]])%list in
  let message := "Deploy " +:+ name +:+ " via GPTbuilderauto" in
  match commit_refused g message with
  | Some e => (done, failed e)
  | None =>
  let done := (done ++ [GitCommit message])%list in
  match remote_names g repo_path with
  | [] => (done, GitDeployed name repo_path file_path branch)
  | _ :: _ =>
      if bool_decide ("origin" ∈ remote_names g repo_path) then
        match push_refused g "origin" branch with
        | Some e => (done, failed e)
        | None =>
            ((done ++ [GitPush "origin" branch])%list,
             GitDeployed name repo_path file_path branch)
        end
      else (done, failed (ValueError "Remote named 'origin' didn't exist"))
  end end end end end.

(** A repository without remotes, one with [origin], and one whose only
    remote is called [upstream]. *)
Definition local_repo : git_world := {|
  repo_refused := λ _, None; git_write_refused := λ _, None;
  add_refused := λ _, None; commit_refused := λ _, None;
  remote_names := λ _, []; push_refused := λ _ _, None;
|}.

Definition cloned_repo : git_world := {|
  repo_refused := λ _, None; git_write_refused := λ _, None;
  add_refused := λ _, None; commit_refused := λ _, None;
  remote_names := λ _, ["origin"]; push_refused := λ _ _, None;
|}.

Definition upstream_repo : git_world := {|
  repo_refused := λ _, None; git_write_refused := λ _, None;
  add_refused := λ _, None; commit_refused := λ _, None;
  remote_names := λ _, ["upstream"]; push_refused := λ _ _, None;
|}.

(** A codec that keeps the mapping: one "key=value" line per entry is
    enough for the examples. *)
Definition echo_codec : world := {|
  denied := λ _, None;
  json_dumps := λ md, match md with
                      | [(k, v)] => k +:+ "=" +:+ v
                      | _ => ""
                      end;
  json_loads := λ text, if String.eqb text "author=test" then Ok [("author", "test")]
                        else Ok [];
|}.

End Deployer.

(* ===================================================================== *)
(** ** monitor/maintenance.py *)
(* ===================================================================== *)

Module MaintenanceMonitor.

Inductive status : Type := healthy | warning | error.

#[global] Instance status_eq_dec : EqDecision status.
Proof. solve_decision. Defined.

(** A health record; a key the dictionary does not have is [None]. *)
Record HealthRecord : Type := {
  status_of : status;
  message : option string;
  deployment_path : option string;
  main_file : option string;
  file_size : option Z;
  syntax_valid : option bool;
  timestamp : string;
}.

(** What the file system shows of one match of [main.*]. *)
Record main_file_view : Type := {
  mf_path : string;                 (* str(main_file) *)
  mf_suffix : string;               (* main_file.suffix *)
  mf_size : result exn Z;           (* main_file.stat().st_size *)
  mf_py_compile : result exn Z;     (* exit status of python3 -m py_compile, timeout 10 *)
}.

(** What the file system shows of a deployment path. [exists()] answers,
    or raises when the path cannot be examined (a directory on the way that
    may not be searched, a name that is too long). *)
Record path_view : Type := {
  pv_exists : result exn bool;                   (* path.exists() *)
  pv_glob : result exn (list main_file_view);    (* list(path.glob("main.*")) *)
}.

(** What the file system shows of a log file. *)
Inductive log_view : Type :=
| Missing
| Unreadable (e : exn)
| Content (text : string).

Record world : Type := {
  look : string → path_view;
  logs : string → log_view;
  (* what str.upper makes of a stretch of characters outside ASCII *)
  upper_table : string → string;
}.

Record t : Type := {
  check_interval : Z;
  health_history : gmap string (list HealthRecord);
}.

Definition __init__ (check_interval : Z) : t :=
  {| check_interval := check_interval; health_history := ∅ |}.

(** [Path(p).name]: the last component, empty and "." components aside. *)
Definition path_name (p : string) : string :=
  List.last (List.filter (λ c, negb (String.eqb c "" || String.eqb c "."))
                         (split "/"%char p)) "".

Definition error_record (msg : string) (now : datetime) : HealthRecord :=
  {| status_of := error; message := Some msg; deployment_path := None;
     main_file := None; file_size := None; syntax_valid := None;
     timestamp := isoformat now |}.

Definition _check_python_syntax (f : main_file_view) : bool :=
  try_except (rc ← mf_py_compile f; Ok (bool_decide (rc = 0))) (λ _, false).

(** The part of [health_check] inside [try]: the monitor after it and the
    record returned. *)
Definition inspect (self : t) (view : path_view) (now : datetime) (deployment_path : string)
  : t * HealthRecord :=
  try_except
    (main_files ← pv_glob view;
     match main_files with
     | [] => Ok (self, error_record "Main file not found" now)
     | main_file :: _ =>
         size ← mf_size main_file;
         let syntax_ok :=
           if String.eqb (mf_suffix main_file) ".py"
           then _check_python_syntax main_file
           else true in
         let health_status :=
           {| status_of := if syntax_ok then healthy else warning;
              message := None;
              deployment_path := Some (Path.str (Path.parse deployment_path));
              main_file := Some (mf_path main_file);
              file_size := Some size;
              syntax_valid := Some syntax_ok;
              timestamp := isoformat now |} in
         (* store in history *)
         let deployment_name := path_name deployment_path in
         let history := default [] (health_history self !! deployment_name) in
         Ok ({| check_interval := check_interval self;
                health_history :=
                  <[deployment_name := (history ++ [health_status])%list]>
                    (health_history self) |},
             health_status)
     end)
    (λ e, (self, error_record (str e) now)).

(** [health_check]: the monitor after the call, and the record returned or
    the exception raised. [exists()] is called outside the [try]: when it
    raises, the call raises and the monitor is as it was. *)
Definition health_check (self : t) (w : world) (now : datetime) (deployment_path : string)
  : t * result exn HealthRecord :=
  let view := look w deployment_path in
  match pv_exists view with
  | Raise e => (self, Raise e)
  | Ok false => (self, Ok (error_record "Deployment not found" now))
  | Ok true =>
      let '(self', health_status) := inspect self view now deployment_path in
      (self', Ok health_status)
  end.

Record LogAnalysis : Type := {
  total_lines : nat;
  errors : nat;
  warnings : nat;
  recent_errors : list string;
  recent_warnings : list string;
  analysed_at : string;
}.

Inductive analysis : Type :=
| AnalysisError (message : string)
| AnalysisSuccess (a : LogAnalysis).

Definition is_error_line (w : world) (line : string) : bool :=
  contains "ERROR" (upper (upper_table w) line).
Definition is_warning_line (w : world) (line : string) : bool :=
  contains "WARNING" (upper (upper_table w) line).

Definition analyze_logs (w : world) (now : datetime) (log_file : string) : analysis :=
  match logs w log_file with
  | Missing => AnalysisError "Log file not found"
  | Unreadable e => AnalysisError (str e)
  | Content content =>
      let lines := split (ascii_of_N 10) content in
      let errors := List.filter (is_error_line w) lines in
      let warnings := List.filter (is_warning_line w) lines in
      AnalysisSuccess
        {| total_lines := length lines;
           errors := length errors;
           warnings := length warnings;
           recent_errors := match errors with [] => [] | _ => last_n 10 errors end;
           recent_warnings := match warnings with [] => [] | _ => last_n 10 warnings end;
           analysed_at := isoformat now |}
  end.

Definition a_clock : datetime :=
  {| year := 2024; month := 3; day := 9; hour := 8; minute := 30; second := 0;
     microsecond := 0 |}.

Definition good_main : main_file_view :=
  {| mf_path := "/srv/app_1/main.py"; mf_suffix := ".py";
     mf_size := Ok 14; mf_py_compile := Ok 0 |}.

Definition broken_main : main_file_view :=
  {| mf_path := "/srv/app_2/main.py"; mf_suffix := ".py";
     mf_size := Ok 23; mf_py_compile := Ok 1 |}.

(** A [main.py] that is listed but cannot be inspected (a dangling link). *)
Definition dangling_main : main_file_view :=
  {| mf_path := "/srv/app_3/main.py"; mf_suffix := ".py";
     mf_size := Raise (OSError "[Errno 2] No such file or directory: '/srv/app_3/main.py'");
     mf_py_compile := Ok 0 |}.

Definition test_log : string :=
  String (ascii_of_N 10) "INFO: Application started" +:+
  String (ascii_of_N 10) "WARNING: Config file not found" +:+
  String (ascii_of_N 10) "ERROR: Database connection failed" +:+
  String (ascii_of_N 10) "INFO: Retrying connection" +:+
  String (ascii_of_N 10) "ERROR: Connection timeout" +:+
  String (ascii_of_N 10) "".

(** A log in mixed case: one line is an error and a warning at once, one
    has its word inside a longer one. *)
Definition mixed_log : string :=
  "error: disk full" +:+
  String (ascii_of_N 10) "Warning: low memory" +:+
  String (ascii_of_N 10) "info: started" +:+
  String (ascii_of_N 10) "Error while writing the warning" +:+
  String (ascii_of_N 10) "3 errors found".

(** What [str.upper] makes of the dotless i and of the long s, which is all
    the examples need of the tables of Unicode. *)
Definition few_letters (stretch : string) : string :=
  if String.eqb stretch "ı" then "I"
  else if String.eqb stretch "ſ" then "S"
  else stretch.

(** A small server: three deployments, an empty directory, a directory
    under a parent that may not be searched, and two logs. *)
Definition server : world := {|
  look := λ p,
    if String.eqb p "/srv/app_1" then {| pv_exists := Ok true; pv_glob := Ok [good_main] |}
    else if String.eqb p "/srv/app_2"
    then {| pv_exists := Ok true; pv_glob := Ok [broken_main] |}
    else if String.eqb p "/srv/app_3"
    then {| pv_exists := Ok true; pv_glob := Ok [dangling_main] |}
    else if String.eqb p "/srv/empty" then {| pv_exists := Ok true; pv_glob := Ok [] |}
    else if String.eqb p "/root/private/app_4"
    then {| pv_exists := Raise (OSError "[Errno 13] Permission denied: '/root/private/app_4'");
            pv_glob := Ok [] |}
    else {| pv_exists := Ok false; pv_glob := Ok [] |};
  logs := λ p, if String.eqb p "/srv/test.log" then Content test_log
               else if String.eqb p "/srv/mixed.log" then Content mixed_log
               else Missing;
  upper_table := few_letters;
|}.

Definition status_name (s : status) : string :=
  match s with
  | healthy => "healthy"
  | warning => "warning"
  | error => "error"
  end.

(** The loop of [get_health_history]: the records not older than [cutoff]. *)
Fixpoint history_loop (cutoff : Z) (records : list HealthRecord)
  : result exn (list HealthRecord) :=
  match records with
  | [] => Ok []
  | record :: records =>
      record_time ← fromisoformat (timestamp record);
      history ← history_loop cutoff records;
      Ok (if bool_decide (cutoff ≤ to_microseconds record_time)
          then record :: history else history)
  end.

Definition get_health_history (self : t) (now : datetime) (deployment_name : string)
    (hours : Z) : result exn (list HealthRecord) :=
  match health_history self !! deployment_name with
  | None => Ok []
  | Some records =>
      cutoff_time ← minus_hours now hours;
      history_loop cutoff_time records
  end.

Record FixResult : Type := {
  fix_status : string;
  fix_message : string;
  fix_deployment_path : string;
  fix_issue : string;
  fix_timestamp : string;
}.

Definition auto_fix (self : t) (now : datetime) (deployment_path issue : string)
  : t * FixResult :=
  (self,
   {| fix_status := "not_implemented";
      fix_message := "Auto-fix functionality requires GPT integration";
      fix_deployment_path := deployment_path;
      fix_issue := issue;
      fix_timestamp := isoformat now |}).

Definition count_status (s : status) (history : list HealthRecord) : nat :=
  length (List.filter (λ h, bool_decide (status_of h = s)) history).

Definition nl : string := String (ascii_of_N 10) "".

Definition issue_line (issue : HealthRecord) : string :=
  nl +:+ "- [" +:+ timestamp issue +:+ "] " +:+ status_name (status_of issue) +:+ ": "
  +:+ default "No details" (message issue).

(** The text of a report over the records [history]. [percent count total]
    is count/total*100 written with one decimal, a floating-point
    computation left to the caller of the model. *)
Definition report_text (percent : nat → nat → string) (deployment_name : string)
    (generated : datetime) (history : list HealthRecord) : string :=
  let report :=
    "# Maintenance Report: " +:+ deployment_name +:+ nl +:+ nl
    +:+ "## Summary" +:+ nl
    +:+ "- Total checks: " +:+ pretty (length history) +:+ nl
    +:+ "- Period: Last 24 hours" +:+ nl
    +:+ "- Generated: " +:+ isoformat generated +:+ nl +:+ nl
    +:+ "## Health Status" +:+ nl in
  let healthy_count := count_status healthy history in
  let warning_count := count_status warning history in
  let error_count := count_status error history in
  let report :=
    report +:+ nl
    +:+ "- Healthy: " +:+ pretty healthy_count +:+ " ("
    +:+ percent healthy_count (length history) +:+ "%)" +:+ nl
    +:+ "- Warnings: " +:+ pretty warning_count +:+ " ("
    +:+ percent warning_count (length history) +:+ "%)" +:+ nl
    +:+ "- Errors: " +:+ pretty error_count +:+ " ("
    +:+ percent error_count (length history) +:+ "%)" +:+ nl +:+ nl
    +:+ "## Recent Issues" +:+ nl in
  let recent_issues :=
    last_n 5 (List.filter (λ h, negb (bool_decide (status_of h = healthy))) history) in
  match recent_issues with
  | [] => report +:+ nl +:+ "No recent issues detected."
  | _ => foldl (λ report issue, report +:+ issue_line issue) report recent_issues
  end.

(** [generate_report]; [now] is the clock of the history lookup,
    [generated] the clock when the text is written. *)
Definition generate_report (percent : nat → nat → string) (self : t)
    (now generated : datetime) (deployment_name : string) : result exn string :=
  history ← get_health_history self now deployment_name 24;
  match history with
  | [] => Ok ("No health history available for " +:+ deployment_name)
  | _ => Ok (report_text percent deployment_name generated history)
  end.

(** Every record of the history carries a time stamp written by
    [isoformat] from a reading of the clock. *)
Definition stamped (self : t) : Prop :=
  ∀ name records r, health_history self !! name = Some records → r ∈ records →
    ∃ d, real_datetime d ∧ timestamp r = isoformat d.

(** The history holds no error record, and no record with a message. *)
Definition error_free (self : t) : Prop :=
  ∀ name records r, health_history self !! name = Some records → r ∈ records →
    status_of r ≠ error ∧ message r = None.

(** The record was stamped by a clock reading not before [cutoff]. *)
Definition within (cutoff : Z) (r : HealthRecord) : Prop :=
  ∃ d, real_datetime d ∧ timestamp r = isoformat d ∧ cutoff ≤ to_microseconds d.

(** What every history built by health checks satisfies. *)
Definition well_kept (self : t) : Prop :=
  stamped self ∧ error_free self
  ∧ ∀ name records, health_history self !! name = Some records → records ≠ [].

Definition an_hour_later : datetime :=
  {| year := 2024; month := 3; day := 9; hour := 9; minute := 30; second := 0;
     microsecond := 0 |}.

(** A second tree with a deployment of the same base name as /srv/app_1. *)
Definition two_trees : world := {|
  look := λ p,
    if String.eqb p "/srv/app_1" then {| pv_exists := Ok true; pv_glob := Ok [good_main] |}
    else if String.eqb p "/backup/app_1"
    then {| pv_exists := Ok true; pv_glob := Ok [broken_main] |}
    else {| pv_exists := Ok false; pv_glob := Ok [] |};
  logs := λ _, Missing;
  upper_table := few_letters;
|}.

End MaintenanceMonitor.

(* ===================================================================== *)
(** ** core/code_generator.py *)
(* ===================================================================== *)

Module CodeGenerator.

Record request : Type := {
  req_model : string;
  messages : list (string * string);      (* role, content *)
  temperature : Q;
}.

Record response : Type := {
  choices : list string;                  (* choices[i].message.content *)
  total_tokens : Z;                       (* usage.total_tokens *)
}.

Record world : Type := {
  environ : gmap string string;
  create : request → result exn response; (* client.chat.completions.create *)
}.

Record OpenAI : Type := { client_key : string }.

Record t : Type := {
  api_key : option string;
  model : string;
  client : option OpenAI;
}.

Record GenerationResult : Type := {
  code : string;
  language_of : string;
  requirement_of : string;
  model_of : string;
  tokens_used : Z;
}.

(** A string is true when it is there and not empty. *)
Definition truthy (s : option string) : bool :=
  match s with
  | Some (String _ _) => true
  | _ => false
  end.

(** [a or b] *)
Definition or_ (a b : option string) : option string := if truthy a then a else b.

Definition __init__ (w : world) (api_key : option string) (model : string) : result exn t :=
  let api_key := or_ api_key (environ w !! "OPENAI_API_KEY") in
  Ok {| api_key := api_key;
        model := model;
        client := if truthy api_key
                  then Some {| client_key := default "" api_key |}
                  else None |}.

Definition newline : string := String (ascii_of_N 10) "".

(** A method returns the requests it sent to the provider, and its value
    or the exception it raises. *)
Definition generate_code (self : t) (w : world) (requirement language : string)
    (context : option string) : list request * result exn GenerationResult :=
  match client self with
  | None => ([], Raise (ValueError "OpenAI API key not configured"))
  | Some _ =>
      let system_prompt :=
        "You are an expert " +:+ language +:+ " developer." +:+ newline
        +:+ "Generate clean, well-documented, production-ready code based on the user's requirements."
        +:+ newline
        +:+ "Include error handling, type hints, and follow best practices." in
      let user_prompt := "Requirement: " +:+ requirement in
      let user_prompt :=
        if truthy context
        then user_prompt +:+ newline +:+ newline +:+ "Context:" +:+ newline +:+ default "" context
        else user_prompt in
      let req := {| req_model := model self;
                    messages := [("system", system_prompt); ("user", user_prompt)];
                    temperature := 7 # 10 |} in
      ([req],
       response ← create w req;
       match choices response with
       | [] => Raise (IndexError "list index out of range")
       | generated_code :: _ =>
           Ok {| code := generated_code;
                 language_of := language;
                 requirement_of := requirement;
                 model_of := model self;
                 tokens_used := total_tokens response |}
       end)
  end.

Definition refine_code (self : t) (w : world) (code feedback language : string)
  : list request * result exn string :=
  match client self with
  | None => ([], Raise (ValueError "OpenAI API key not configured"))
  | Some _ =>
      let prompt :=
        "Here is some " +:+ language +:+ " code:" +:+ newline +:+ newline
        +:+ "```" +:+ language +:+ newline +:+ code +:+ newline +:+ "```" +:+ newline +:+ newline
        +:+ "Please refine this code based on the following feedback:" +:+ newline
        +:+ feedback +:+ newline +:+ newline
        +:+ "Provide only the refined code without explanations." in
      let req := {| req_model := model self;
                    messages := [("user", prompt)];
                    temperature := 7 # 10 |} in
      ([req],
       response ← create w req;
       match choices response with
       | [] => Raise (IndexError "list index out of range")
       | content :: _ => Ok content
       end)
  end.

Definition generate_tests (self : t) (w : world) (code language : string)
  : list request * result exn string :=
  match client self with
  | None => ([], Raise (ValueError "OpenAI API key not configured"))
  | Some _ =>
      let prompt :=
        "Generate comprehensive unit tests for this " +:+ language +:+ " code:"
        +:+ newline +:+ newline
        +:+ "```" +:+ language +:+ newline +:+ code +:+ newline +:+ "```" +:+ newline +:+ newline
        +:+ "Include edge cases and error conditions. Use pytest for Python." in
      let req := {| req_model := model self;
                    messages := [("user", prompt)];
                    temperature := 7 # 10 |} in
      ([req],
       response ← create w req;
       match choices response with
       | [] => Raise (IndexError "list index out of range")
       | content :: _ => Ok content
       end)
  end.

(** No credential: no key argument and no [OPENAI_API_KEY]. *)
Definition no_credential (w : world) (api_key : option string) : Prop :=
  truthy api_key = false ∧ truthy (environ w !! "OPENAI_API_KEY") = false.

(** An environment without the variable, and a provider that answers. *)
Definition bare : world := {|
  environ := {["HOME" := "/root"]};
  create := λ _, Ok {| choices := ["def hello(): pass"]; total_tokens := 100 |};
|}.

(** An environment with the variable set and a provider that is down. *)
Definition keyed_down : world := {|
  environ := {["OPENAI_API_KEY" := "sk-env"]};
  create := λ _, Raise (Exception "Connection error.");
|}.

(** An environment with the variable set and a provider that answers. *)
Definition keyed : world := {|
  environ := {["OPENAI_API_KEY" := "sk-env"]};
  create := λ _, Ok {| choices := ["def hello(): pass"; "def other(): pass"];
                       total_tokens := 100 |};
|}.

End CodeGenerator.

(* ===================================================================== *)
(** ** utils/config.py *)
(* ===================================================================== *)

Module Config.

Record t : Type := {
  openai_api_key : option string;
  openai_model : string;
  execution_timeout : Z;
  enable_docker : bool;
  deploy_provider : string;
  deploy_path : string;
  enable_sandboxing : bool;
  max_execution_time : Z;
  log_level : string;
  log_file : string;
}.

(** [os.getenv(key, default)] *)
Definition getenv (environ : gmap string string) (key default_ : string) : string :=
  default default_ (environ !! key).

(** [load_config], for the environment after [load_dotenv()]; [int_] is
    Python's [int] on strings. *)
Definition load_config (environ : gmap string string) (int_ : string → result exn Z)
  : result exn t :=
  timeout ← int_ (getenv environ "EXECUTION_TIMEOUT" "300");
  max_time ← int_ (getenv environ "MAX_EXECUTION_TIME" "600");
  Ok {| openai_api_key := environ !! "OPENAI_API_KEY";
        openai_model := getenv environ "OPENAI_MODEL" "gpt-4";
        execution_timeout := timeout;
        enable_docker := String.eqb (lower (getenv environ "ENABLE_DOCKER" "true")) "true";
        deploy_provider := getenv environ "DEPLOY_PROVIDER" "local";
        deploy_path := getenv environ "DEPLOY_PATH" "/tmp/gptbuilder_deployments";
        enable_sandboxing :=
          String.eqb (lower (getenv environ "ENABLE_SANDBOXING" "true")) "true";
        max_execution_time := max_time;
        log_level := getenv environ "LOG_LEVEL" "INFO";
        log_file := getenv environ "LOG_FILE" "gptbuilder.log" |}.

Definition validate_config (config : t) : bool :=
  forallb (λ value, CodeGenerator.truthy value) [openai_api_key config].

(** A reader of plain decimal numbers, for the examples. *)
Definition plain_int (s : string) : result exn Z :=
  match take_digits (String.length s) 0 s with
  | Some (n, _) => if String.eqb s "" then Raise (ValueError "invalid literal") else Ok n
  | None => Raise (ValueError "invalid literal")
  end.

End Config.

(* ===================================================================== *)
(** ** String facts *)
(* ===================================================================== *)

Lemma lower_upper_ascii c : lower_ascii (upper_ascii c) = lower_ascii c.
Proof. by destruct c as [[] [] [] [] [] [] [] []]. Qed.

Lemma upper_from_ascii table c s :
  is_ascii c = true →
  upper_from table "" (String c s) = String (upper_ascii c) (upper_from table "" s).
Proof. intros Hc. cbn [upper_from]. rewrite Hc. reflexivity. Qed.

(** On a string of ASCII characters, upper-casing changes letters only. *)
Lemma lower_upper table s : ascii_only s = true → lower (upper table s) = lower s.
Proof.
  unfold upper. induction s as [|c s IH]; [done|].
  cbn [ascii_only]. intros [Hc Hs]%andb_prop.
  rewrite upper_from_ascii by done. cbn [lower]. by rewrite lower_upper_ascii, IH.
Qed.

Lemma lower_lower_ascii c : lower_ascii (lower_ascii c) = lower_ascii c.
Proof. by destruct c as [[] [] [] [] [] [] [] []]. Qed.

Lemma lower_idemp s : lower (lower s) = lower s.
Proof. induction s as [|c s IH]; simpl; [done|]. by rewrite lower_lower_ascii, IH. Qed.

(* ===================================================================== *)
(** ** The extension table *)
(* ===================================================================== *)

Lemma executor_extensions_lookup (k : string) :
  CodeExecutor.extensions !! k =
    if decide (k = "python") then Some "py"
    else if decide (k = "javascript") then Some "js"
    else if decide (k = "java") then Some "java"
    else if decide (k = "go") then Some "go"
    else if decide (k = "rust") then Some "rs"
    else None.
Proof.
  unfold CodeExecutor.extensions.
  repeat (case_decide; [subst; by simplify_map_eq|]).
  by simplify_map_eq.
Qed.

(** C7. [_get_extension] is a total function of the language string: the
    lower-cased input python, javascript, java, go, rust gives py, js, java,
    go, rs, every other input gives txt. The result does not depend on the
    case of the letters: the lower-cased input gives the same extension,
    and so does the upper-cased input when the input is ASCII. *)
Theorem get_extension_total_table (language : string) :
  CodeExecutor._get_extension language =
    (if decide (lower language = "python") then "py"
     else if decide (lower language = "javascript") then "js"
     else if decide (lower language = "java") then "java"
     else if decide (lower language = "go") then "go"
     else if decide (lower language = "rust") then "rs"
     else "txt")
  ∧ (∀ table, ascii_only language = true →
       CodeExecutor._get_extension (upper table language)
       = CodeExecutor._get_extension language)
  ∧ CodeExecutor._get_extension (lower language) = CodeExecutor._get_extension language.
Proof.
  unfold CodeExecutor._get_extension.
  rewrite lower_idemp, executor_extensions_lookup.
  split; [|split; [|done]].
  - repeat (case_decide; [done|]). done.
  - intros table Hascii. rewrite lower_upper by done.
    by rewrite executor_extensions_lookup.
Qed.

Example get_extension_examples :
  CodeExecutor._get_extension "python" = "py"
  ∧ CodeExecutor._get_extension "JavaScript" = "js"
  ∧ CodeExecutor._get_extension "JAVA" = "java"
  ∧ CodeExecutor._get_extension "Go" = "go"
  ∧ CodeExecutor._get_extension "rust" = "rs"
  ∧ CodeExecutor._get_extension "unknown" = "txt"
  ∧ CodeExecutor._get_extension "" = "txt"
  ∧ CodeExecutor._get_extension (upper MaintenanceMonitor.few_letters "rust") = "rs".
Proof. vm_compute. done. Qed.

(** Outside ASCII the upper-cased input may name another language: the long
    s becomes S. *)
Example get_extension_long_s :
  CodeExecutor._get_extension "ruſt" = "txt"
  ∧ CodeExecutor._get_extension (upper MaintenanceMonitor.few_letters "ruſt") = "rs".
Proof. vm_compute. done. Qed.

(** C10. The executor's and the deployer's extension mappings agree on
    every language string. *)
Theorem get_extension_executor_deployer (language : string) :
  CodeExecutor._get_extension language = Deployer._get_extension language.
Proof.
  unfold CodeExecutor._get_extension, Deployer._get_extension.
  by replace Deployer.extensions with CodeExecutor.extensions.
Qed.

(* ===================================================================== *)
(** ** Execution results *)
(* ===================================================================== *)

Section execution.
Import CodeExecutor.
Context (self : CodeExecutor.t) (w : world) (code language : string)
        (args : option (list string)) (env_vars : option (gmap string string)).

Lemma subprocess_run_timeout (c : child) (t : Z) :
  runs_longer_than c t → ∃ msg, subprocess_run c t = Raise (TimeoutExpired msg).
Proof.
  destruct c as [elapsed out err rc| |e]; simpl; [|by eauto|done].
  intros Hlt. destruct (Qle_bool elapsed (inject_Z t)) eqn:Hle; [|by eauto].
  apply Qle_bool_iff in Hle. by apply Qlt_not_le in Hlt.
Qed.

Lemma execute_locally_returns temp_file :
  mktemp w ("." +:+ _get_extension language) code = Ok temp_file →
  ∃ r, _execute_locally self w code language args env_vars = Ok r.
Proof.
  intros Hmk. unfold _execute_locally. rewrite Hmk. simpl.
  destruct (unlink w temp_file); eauto.
Qed.

Lemma execute_locally_invariant r :
  _execute_locally self w code language args env_vars = Ok r →
  success_is_zero_exit r.
Proof.
  unfold _execute_locally, success_is_zero_exit.
  destruct (mktemp w _ code) as [temp_file|e]; simpl; [|done].
  intros Hr.
  assert (Ok r = Ok (E:=exn)
    (try_except
      (result ← local_run self w language temp_file args env_vars;
       Ok {| stdout := cp_stdout result; stderr := cp_stderr result;
             return_code := returncode result;
             success := bool_decide (returncode result = 0) |})
      (λ e, match e with
            | TimeoutExpired _ =>
                {| stdout := "";
                   stderr := "Execution timeout after " +:+ pretty (timeout self) +:+ " seconds";
                   return_code := -1; success := false |}
            | _ => {| stdout := ""; stderr := str e; return_code := -1; success := false |}
            end))) as [= ->].
  { by destruct (unlink w temp_file). }
  destruct (local_run self w language temp_file args env_vars) as [cp|[]]; done.
Qed.

Lemma execute_locally_raised temp_file e r :
  mktemp w ("." +:+ _get_extension language) code = Ok temp_file →
  local_run self w language temp_file args env_vars = Raise e →
  _execute_locally self w code language args env_vars = Ok r →
  return_code r = -1 ∧ success r = false ∧ stdout r = "".
Proof.
  unfold _execute_locally. intros -> Hrun. simpl. rewrite Hrun. simpl.
  destruct (unlink w temp_file), e; by intros [= <-].
Qed.

(** What the [try] block of container mode returns is a success with
    status 0 and nothing on stderr. *)
Lemma docker_run_ok r :
  docker_run self w code language args env_vars = Ok r →
  success r = true ∧ return_code r = 0 ∧ stderr r = "".
Proof.
  unfold docker_run.
  destruct (mkdtemp w) as [tmpdir|]; simpl; [|done].
  destruct (cleanup w tmpdir); [|done].
  destruct (write_text w _ code); simpl; [|done].
  destruct (containers_run w _) as [[[]|]|]; simpl; try done; by intros [= <-].
Qed.

(** A container error comes from [containers.run] and from nowhere else. *)
Lemma docker_run_container_error out err status text :
  docker_run self w code language args env_vars = Raise (ContainerError out err status text) →
  ∃ req, containers_run w req = Raise (ContainerError out err status text).
Proof.
  unfold docker_run.
  destruct (mkdtemp w) as [tmpdir|]; simpl; [|done].
  destruct (cleanup w tmpdir); [|done].
  destruct (write_text w _ code); simpl; [|done].
  destruct (containers_run w _) as [[[]|]|[]] eqn:Hc; simpl; try done.
  intros [= -> -> -> ->]. by eexists.
Qed.

Lemma execute_in_docker_cases r :
  docker_client self = true →
  _execute_in_docker self w code language args env_vars = Ok r →
  (docker_run self w code language args env_vars = Ok r)
  ∨ (∃ e, docker_run self w code language args env_vars = Raise (Other e)
          ∧ r = {| stdout := ""; stderr := str e; return_code := -1; success := false |})
  ∨ (∃ e_out e_err status text out err,
       docker_run self w code language args env_vars
       = Raise (ContainerError e_out e_err status text)
       ∧ decode_or e_out "" = Ok out ∧ decode_or e_err text = Ok err
       ∧ r = {| stdout := out; stderr := err; return_code := status; success := false |}).
Proof.
  unfold _execute_in_docker. intros ->. simpl.
  destruct (docker_run self w code language args env_vars)
    as [r'|[e_out e_err status text|e]]; simpl.
  - intros [= <-]. by left.
  - destruct (decode_or e_out "") as [out|] eqn:Hout; simpl; [|done].
    destruct (decode_or e_err text) as [err|] eqn:Herr; simpl; [|done].
    intros [= <-]. right. right. by eexists _, _, _, _, _, _.
  - intros [= <-]. right. left. by eexists.
Qed.

Lemma execute_in_docker_invariant r :
  _execute_in_docker self w code language args env_vars = Ok r →
  success_is_zero_exit r
  ∨ ∃ e_out e_err text,
      docker_client self = true
      ∧ docker_run self w code language args env_vars
        = Raise (ContainerError e_out e_err 0 text)
      ∧ return_code r = 0 ∧ success r = false.
Proof.
  destruct (docker_client self) eqn:Hclient.
  - intros Hr. destruct (execute_in_docker_cases r Hclient Hr)
      as [Hrun|[(e & Hrun & ->)|(e_out & e_err & status & text & out & err
                                  & Hrun & _ & _ & ->)]].
    + left. destruct (docker_run_ok r Hrun) as (Hs & Hc & _).
      unfold success_is_zero_exit. by rewrite Hs, Hc.
    + by left.
    + destruct (decide (status = 0)) as [->|Hne].
      * right. by exists e_out, e_err, text.
      * left. unfold success_is_zero_exit. simpl. by rewrite bool_decide_eq_false_2.
  - unfold _execute_in_docker. rewrite Hclient. simpl. left.
    by apply execute_locally_invariant.
Qed.

Lemma execute_in_docker_contract r :
  docker_contract w →
  _execute_in_docker self w code language args env_vars = Ok r →
  success_is_zero_exit r.
Proof.
  intros Hdocker [?|(e_out & e_err & text & _ & Hrun & _)]%execute_in_docker_invariant; [done|].
  apply docker_run_container_error in Hrun as [req Hreq].
  by destruct (Hdocker _ _ _ _ _ Hreq).
Qed.

Lemma execute_in_docker_raised e r :
  docker_client self = true →
  docker_run self w code language args env_vars = Raise (Other e) →
  _execute_in_docker self w code language args env_vars = Ok r →
  return_code r = -1 ∧ success r = false ∧ stdout r = "".
Proof.
  unfold _execute_in_docker. intros -> ->. simpl. by intros [= <-].
Qed.

(** Container mode returns a result, unless reading or decoding an
    attribute of a container error raises. *)
Lemma execute_in_docker_returns :
  docker_client self = true →
  (∃ r, _execute_in_docker self w code language args env_vars = Ok r)
  ∨ ∃ e_out e_err status text e,
      docker_run self w code language args env_vars
      = Raise (ContainerError e_out e_err status text)
      ∧ _execute_in_docker self w code language args env_vars = Raise e
      ∧ (decode_or e_out "" = Raise e
         ∨ (∃ out, decode_or e_out "" = Ok out) ∧ decode_or e_err text = Raise e).
Proof.
  unfold _execute_in_docker. intros ->. simpl.
  destruct (docker_run self w code language args env_vars)
    as [r'|[e_out e_err status text|e]]; simpl; [by eauto| |by eauto].
  destruct (decode_or e_out "") as [out|e] eqn:Hout; simpl.
  - destruct (decode_or e_err text) as [err|e] eqn:Herr; simpl; [by eauto|].
    right. exists e_out, e_err, status, text, e.
    split; [done|]. split; [done|]. right. split; [by exists out|done].
  - right. exists e_out, e_err, status, text, e.
    split; [done|]. split; [done|]. by left.
Qed.

End execution.



(** C1 as stated fails: when the container runtime raises a container
    error that carries the status 0, the result returned has
    [return_code = 0] and [success = false]. *)
Lemma container_error_status_zero :
  CodeExecutor.execute_python
    (CodeExecutor.__init__ CodeExecutor.zero_status_container 300 true true)
    CodeExecutor.zero_status_container "print(1)" None None
  = Ok {| CodeExecutor.stdout := ""; CodeExecutor.stderr := "container failed";
          CodeExecutor.return_code := 0; CodeExecutor.success := false |}
  ∧ ¬ CodeExecutor.success_is_zero_exit
        {| CodeExecutor.stdout := ""; CodeExecutor.stderr := "container failed";
           CodeExecutor.return_code := 0; CodeExecutor.success := false |}.
Proof. split; [reflexivity|discriminate]. Qed.

(** With an error that has no attribute [stdout], container mode returns
    nothing for a failed container: the handler raises. *)
Example container_error_without_stdout :
  CodeExecutor.execute_python
    (CodeExecutor.__init__ CodeExecutor.no_stdout_container 300 true true)
    CodeExecutor.no_stdout_container "import sys; sys.exit(3)" None None
  = Raise (Exception "'ContainerError' object has no attribute 'stdout'").
Proof. reflexivity. Qed.

(** C2. A local execution whose child process outlives the configured
    timeout returns [success = false], [return_code = -1], an empty stdout
    and the stderr text "Execution timeout after <timeout> seconds", which
    mentions "timeout". *)
Theorem local_timeout_result (self : CodeExecutor.t) (w : CodeExecutor.world)
    (code language : string) (args : option (list string))
    (env_vars : option (gmap string string)) (temp_file : string) :
  CodeExecutor.mktemp w ("." +:+ CodeExecutor._get_extension language) code = Ok temp_file →
  CodeExecutor.runs_longer_than
    (CodeExecutor.spawn w (CodeExecutor._get_command language temp_file args)
                        (default ∅ env_vars ∪ CodeExecutor.environ w))
    (CodeExecutor.timeout self) →
  ∃ r, CodeExecutor._execute_locally self w code language args env_vars = Ok r
       ∧ CodeExecutor.success r = false
       ∧ CodeExecutor.return_code r = -1
       ∧ CodeExecutor.stdout r = ""
       ∧ CodeExecutor.stderr r =
           "Execution timeout after " +:+ pretty (CodeExecutor.timeout self) +:+ " seconds"
       ∧ contains "timeout" (CodeExecutor.stderr r) = true
       ∧ contains "timeout" (lower (CodeExecutor.stderr r)) = true.
Proof.
  intros Hmk Hlong.
  destruct (subprocess_run_timeout _ _ Hlong) as [msg Hrun].
  unfold CodeExecutor._execute_locally, CodeExecutor.local_run.
  rewrite Hmk. simpl. rewrite Hrun. simpl.
  eexists. split; [by destruct (CodeExecutor.unlink w temp_file)|].
  by repeat split.
Qed.

Lemma local_timeout_result_witness :
  ∃ r, CodeExecutor.execute_python
         (CodeExecutor.__init__ CodeExecutor.sleepy 1 false true) CodeExecutor.sleepy
         "import time; time.sleep(10)" None None = Ok r
       ∧ CodeExecutor.success r = false
       ∧ CodeExecutor.return_code r = -1
       ∧ CodeExecutor.stderr r = "Execution timeout after 1 seconds".
Proof.
  destruct (local_timeout_result
              (CodeExecutor.__init__ CodeExecutor.sleepy 1 false true) CodeExecutor.sleepy
              "import time; time.sleep(10)" "python" None None "/tmp/tmpk3x.py")
    as (r & Hr & Hs & Hc & _ & He & _).
  - reflexivity.
  - reflexivity.
  - exists r. repeat split; [exact Hr|exact Hs|exact Hc|].
    rewrite He. reflexivity.
Defined.

(* ===================================================================== *)
(** ** Timestamps *)
(* ===================================================================== *)

Lemma digit_inj (a b : Z) : digit a = digit b → a `mod` 10 = b `mod` 10.
Proof.
  unfold digit. intros H. apply (f_equal N_of_ascii) in H.
  pose proof (Z.mod_pos_bound a 10 eq_refl).
  pose proof (Z.mod_pos_bound b 10 eq_refl).
  rewrite !N_ascii_embedding in H by lia. lia.
Qed.

Lemma d2_inj (a b : Z) : 0 ≤ a < 100 → 0 ≤ b < 100 → d2 a = d2 b → a = b.
Proof.
  unfold d2. intros Ha Hb [= H1 H0].
  apply digit_inj in H1, H0.
  Z.to_euclidean_division_equations. lia.
Qed.

Lemma d4_inj (a b : Z) : 0 ≤ a < 10000 → 0 ≤ b < 10000 → d4 a = d4 b → a = b.
Proof.
  unfold d4, d2. intros Ha Hb [= H3 H2 H1 H0].
  apply digit_inj in H3, H2, H1, H0.
  Z.to_euclidean_division_equations. lia.
Qed.

Lemma strftime_stamp_length (d : datetime) : String.length (strftime_stamp d) = 15%nat.
Proof. reflexivity. Qed.

Lemma strftime_stamp_same_second (a b : datetime) :
  same_second a b → strftime_stamp a = strftime_stamp b.
Proof.
  unfold same_second, strftime_stamp. intros (-> & -> & -> & -> & -> & ->). done.
Qed.

Lemma append_inj_r (p a b : string) : p +:+ a = p +:+ b → a = b.
Proof. induction p as [|c p IH]; simpl; [done|]. intros [= H]. auto. Qed.

Lemma d2_app_inj (a b : Z) (s t : string) :
  d2 a +:+ s = d2 b +:+ t → d2 a = d2 b ∧ s = t.
Proof.
  unfold d2. intros [= H1 H0 H]. change (s = t) in H. by rewrite H1, H0.
Qed.

Lemma d4_app_inj (a b : Z) (s t : string) :
  d4 a +:+ s = d4 b +:+ t → d4 a = d4 b ∧ s = t.
Proof.
  unfold d4, d2. intros [= H3 H2 H1 H0 H]. change (s = t) in H.
  by rewrite H3, H2, H1, H0.
Qed.

Lemma strftime_stamp_inj (a b : datetime) :
  valid_datetime a → valid_datetime b →
  strftime_stamp a = strftime_stamp b → same_second a b.
Proof.
  unfold valid_datetime, strftime_stamp, same_second.
  intros (Hy & Hm & Hd & Hh & Hmi & Hs & _) (Hy' & Hm' & Hd' & Hh' & Hmi' & Hs' & _) H.
  apply d4_app_inj in H as [Ey H].
  apply d2_app_inj in H as [Em H].
  apply d2_app_inj in H as [Ed H].
  apply (append_inj_r "_") in H.
  apply d2_app_inj in H as [Eh H].
  apply d2_app_inj in H as [Emi Es].
  repeat split; [apply d4_inj|apply d2_inj..]; done || lia.
Qed.


Lemma deployment_name_inj (name : string) (a b : datetime) :
  valid_datetime a → valid_datetime b →
  name +:+ "_" +:+ strftime_stamp a = name +:+ "_" +:+ strftime_stamp b →
  same_second a b.
Proof.
  intros Ha Hb H. apply append_inj_r in H. apply (append_inj_r "_") in H.
  by apply strftime_stamp_inj.
Qed.

(* ===================================================================== *)
(** ** Deployments on the file system *)
(* ===================================================================== *)

Section deployments.
Import Deployer.
Context (self : Deployer.t).

Lemma mkdir_dirs w n now fs r fs' :
  mkdir w n now fs = (r, fs') →
  (∀ m, is_dir fs m → is_dir fs' m) ∧ (r = Ok () → is_dir fs' n).
Proof.
  unfold mkdir, seq, guard, ret, raise.
  destruct (denied w (Mkdir n)); [by intros [= <- <-]|].
  destruct (fs !! n) as [[content|files created]|] eqn:Hn; intros [= <- <-].
  - done.
  - split; [done|]. intros _. by exists files, created.
  - split.
    + intros m (files & created & Hm). exists files, created.
      rewrite lookup_insert_ne; [done|]. by intros ->; rewrite Hn in Hm.
    + intros _. exists ∅, now. by rewrite lookup_insert_eq.
Qed.

Lemma write_text_dirs w n file text fs r fs' :
  write_text w n file text fs = (r, fs') → ∀ m, is_dir fs m → is_dir fs' m.
Proof.
  unfold write_text, seq, guard, ret, raise.
  destruct (denied w (WriteText n file)); [by intros [= <- <-]|].
  destruct (fs !! n) as [[content|files created]|] eqn:Hn; intros [= <- <-]; [done| |done].
  intros m (files' & created' & Hm).
  destruct (decide (n = m)) as [->|Hne].
  - eexists _, _. by rewrite lookup_insert_eq.
  - exists files', created'. by rewrite lookup_insert_ne.
Qed.

(** [deploy_code] never raises, keeps every directory that was there, and
    on success has created the directory it names. *)
Lemma deploy_code_spec w now later code name language md fs :
  ∃ r fs',
    deploy_code self w now later code name language md fs = (Ok r, fs')
    ∧ deployment_name_of r = name +:+ "_" +:+ strftime_stamp now
    ∧ (∀ m, is_dir fs m → is_dir fs' m)
    ∧ (success r = true →
         r = Deployed (name +:+ "_" +:+ strftime_stamp now)
               (path_join (deploy_path self) (name +:+ "_" +:+ strftime_stamp now))
               (path_join (path_join (deploy_path self) (name +:+ "_" +:+ strftime_stamp now))
                          ("main." +:+ _get_extension language))
         ∧ is_dir fs' (name +:+ "_" +:+ strftime_stamp now)).
Proof.
  unfold deploy_code, catch, seq.
  destruct (mkdir w _ now fs) as [[[]|e] fs1] eqn:Hmk;
    [|eexists _, _; split; [done|]; split; [done|]; split; [|done];
      by apply (mkdir_dirs _ _ _ _ _ _ Hmk)].
  destruct (mkdir_dirs _ _ _ _ _ _ Hmk) as [Hkeep1 Hnew]. specialize (Hnew eq_refl).
  destruct (write_text w _ _ code fs1) as [[[]|e] fs2] eqn:Hw1;
    [|eexists _, _; split; [done|]; split; [done|]; split; [|done];
      intros m Hm; by eapply write_text_dirs, Hkeep1].
  pose proof (write_text_dirs _ _ _ _ _ _ _ Hw1) as Hkeep2.
  assert (∃ r3 fs3, (if truthy md
            then write_text w (name +:+ "_" +:+ strftime_stamp now) "metadata.json"
                   (json_dumps w (default [] md))
            else ret ()) fs2 = (r3, fs3) ∧ ∀ m, is_dir fs2 m → is_dir fs3 m)
    as (r3 & fs3 & Hw2 & Hkeep3).
  { destruct (truthy md).
    - destruct (write_text w _ "metadata.json" _ fs2) as [r3 fs3] eqn:Hw2.
      exists r3, fs3. split; [done|]. by eapply write_text_dirs.
    - by exists (Ok ()), fs2. }
  rewrite Hw2. destruct r3 as [[]|e];
    [|eexists _, _; split; [done|]; split; [done|]; split; [|done]; by auto].
  destruct (write_text w _ "README.md" _ fs3) as [[[]|e] fs4] eqn:Hw3;
    pose proof (write_text_dirs _ _ _ _ _ _ _ Hw3) as Hkeep4;
    eexists _, _; (split; [done|]); (split; [done|]); (split; [by auto|]); [|done].
  intros _. split; [done|]. by auto.
Qed.

Lemma list_loop_dirs w items acc d :
  d ∈ list_loop self w items acc →
  d ∈ acc ∨ ∃ files created, (name d, Dir files created) ∈ items.
Proof.
  revert acc. induction items as [|[n nd] items IH]; intros acc; simpl; [by left|].
  unfold list_item; simpl. destruct nd as [content|files created]; simpl.
  - intros [?|(f & c & ?)]%IH; [by left|]. right. exists f, c. by right.
  - assert (∀ md, d ∈ list_loop self w items
              (acc ++ [{| name := n; path := path_join (deploy_path self) n;
                          created := isoformat created; metadata_of := md |}]) →
            d ∈ acc ∨ ∃ f c, (name d, Dir f c) ∈ (n, Dir files created) :: items) as Hstep.
    { intros md [Hd|(f & c & ?)]%IH; [|right; exists f, c; by right].
      apply elem_of_app in Hd as [?|Hd]; [by left|].
      apply list_elem_of_singleton in Hd as ->. right. exists files, created. by left. }
    destruct (files !! "metadata.json") as [text|]; simpl; [|by apply Hstep].
    destruct (denied w (ReadText n "metadata.json")); simpl; [by left|].
    destruct (json_loads w text); simpl; [by apply Hstep|by left].
Qed.

(** [list_deployments] never raises, leaves the file system alone and
    lists directories of the deployment root only. *)
Lemma list_deployments_dirs w fs :
  ∃ ds, list_deployments self w fs = (Ok ds, fs) ∧ ∀ d, d ∈ ds → is_dir fs (name d).
Proof.
  unfold list_deployments, catch, seq, iterdir, guard, ret, raise.
  destruct (denied w Iterdir); simpl.
  - exists []. split; [done|]. by intros d ?%elem_of_nil.
  - eexists. split; [done|].
    intros d [?%elem_of_nil|(files & created & Hd)]%list_loop_dirs; [done|].
    exists files, created. by apply elem_of_map_to_list in Hd.
Qed.

Lemma delete_deployment_spec w n (fs : gmap string node) :
  ∃ b : bool, delete_deployment self w n fs = (Ok b, if b then delete n fs else fs)
       ∧ (b = true ↔ is_dir fs n ∧ denied w (Rmtree n) = None).
Proof.
  unfold delete_deployment, exists_, rmtree, guard. unfold catch, seq, ret, raise.
  destruct (fs !! n) as [[content|files created]|] eqn:Hn;
    destruct (denied w (Rmtree n)) eqn:Hd; simpl; rewrite ?Hn;
    try (exists false; split; [done|]; split; [done|];
         intros [(? & ? & ?) ?]; congruence).
  exists true. split; [done|]. split; [|done]. intros _. split; [|done].
  by exists files, created.
Qed.

End deployments.






(* ===================================================================== *)
(** ** Health checks *)
(* ===================================================================== *)

Section health.
Import MaintenanceMonitor.
Context (self : MaintenanceMonitor.t) (w : MaintenanceMonitor.world) (now : datetime)
        (p : string).

Lemma check_python_syntax_ok (f : main_file_view) :
  _check_python_syntax f = true ↔ mf_py_compile f = Ok 0.
Proof.
  unfold _check_python_syntax. destruct (mf_py_compile f) as [rc|e]; simpl.
  - rewrite bool_decide_eq_true. split; [by intros ->|by intros [= ->]].
  - done.
Qed.

Lemma health_check_unexamined e :
  pv_exists (look w p) = Raise e →
  health_check self w now p = (self, Raise e).
Proof. unfold health_check. by intros ->. Qed.

Lemma health_check_missing :
  pv_exists (look w p) = Ok false →
  health_check self w now p = (self, Ok (error_record "Deployment not found" now)).
Proof. unfold health_check. by intros ->. Qed.

Lemma health_check_no_main :
  pv_exists (look w p) = Ok true → pv_glob (look w p) = Ok [] →
  health_check self w now p = (self, Ok (error_record "Main file not found" now)).
Proof. unfold health_check, inspect. by intros -> ->. Qed.

Lemma health_check_glob_raises e :
  pv_exists (look w p) = Ok true → pv_glob (look w p) = Raise e →
  health_check self w now p = (self, Ok (error_record (str e) now)).
Proof. unfold health_check, inspect. by intros -> ->. Qed.

Lemma health_check_stat_raises f rest e :
  pv_exists (look w p) = Ok true → pv_glob (look w p) = Ok (f :: rest) →
  mf_size f = Raise e →
  health_check self w now p = (self, Ok (error_record (str e) now)).
Proof. unfold health_check, inspect. intros -> -> Hsize. simpl. by rewrite Hsize. Qed.

Lemma health_check_inspected f rest size :
  pv_exists (look w p) = Ok true → pv_glob (look w p) = Ok (f :: rest) →
  mf_size f = Ok size →
  let syntax_ok := if String.eqb (mf_suffix f) ".py" then _check_python_syntax f else true in
  let r := {| status_of := if syntax_ok then healthy else warning;
              message := None; deployment_path := Some (Path.str (Path.parse p));
              main_file := Some (mf_path f); file_size := Some size;
              syntax_valid := Some syntax_ok; timestamp := isoformat now |} in
  health_check self w now p =
    ({| check_interval := check_interval self;
        health_history :=
          <[path_name p := (default [] (health_history self !! path_name p) ++ [r])%list]>
            (health_history self) |}, Ok r).
Proof. unfold health_check, inspect. intros -> -> Hsize. simpl. by rewrite Hsize. Qed.

(** The outcomes of a health check: it raises, or returns an error record,
    both without touching the monitor, or it returns a record that is not
    an error, appended to the history of the directory's base name. *)
Lemma health_check_outcome :
  let m := (health_check self w now p).1 in
  match (health_check self w now p).2 with
  | Raise e => m = self ∧ pv_exists (look w p) = Raise e
  | Ok r =>
      timestamp r = isoformat now
      ∧ if bool_decide (status_of r = error)
        then m = self ∧ is_Some (message r)
        else message r = None
             ∧ m = {| check_interval := check_interval self;
                      health_history :=
                        <[path_name p :=
                            (default [] (health_history self !! path_name p) ++ [r])%list]>
                          (health_history self) |}
  end.
Proof.
  destruct (pv_exists (look w p)) as [[]|e] eqn:Hex;
    [|by rewrite health_check_missing; eauto|by rewrite (health_check_unexamined e)].
  destruct (pv_glob (look w p)) as [[|f rest]|e] eqn:Hglob;
    [by rewrite health_check_no_main; eauto|
    |by rewrite (health_check_glob_raises e); eauto].
  destruct (mf_size f) as [size|e] eqn:Hsize;
    [|by rewrite (health_check_stat_raises f rest e); eauto].
  rewrite (health_check_inspected f rest size) by done. simpl.
  split; [done|].
  by rewrite bool_decide_eq_false_2 by (by destruct (if String.eqb _ _ then _ else _)).
Qed.

End health.




(** For a path that [exists()] cannot examine, no record is returned at
    all: the health check raises. *)
Example health_check_unsearchable_parent :
  MaintenanceMonitor.health_check (MaintenanceMonitor.__init__ 60)
    MaintenanceMonitor.server MaintenanceMonitor.a_clock "/root/private/app_4"
  = (MaintenanceMonitor.__init__ 60,
     Raise (OSError "[Errno 13] Permission denied: '/root/private/app_4'")).
Proof. reflexivity. Qed.

(** C4 fails on the code: a health check of a missing path, and one of a
    directory without a main file, return an error record and leave the
    history empty; nothing is stored under the directory's base name. *)
Lemma health_check_error_not_recorded :
  MaintenanceMonitor.health_check (MaintenanceMonitor.__init__ 60)
    MaintenanceMonitor.server MaintenanceMonitor.a_clock "/nonexistent/path"
  = (MaintenanceMonitor.__init__ 60,
     Ok (MaintenanceMonitor.error_record "Deployment not found" MaintenanceMonitor.a_clock))
  ∧ MaintenanceMonitor.health_history
      (MaintenanceMonitor.health_check (MaintenanceMonitor.__init__ 60)
         MaintenanceMonitor.server MaintenanceMonitor.a_clock "/nonexistent/path").1
      !! MaintenanceMonitor.path_name "/nonexistent/path" = None
  ∧ MaintenanceMonitor.health_check (MaintenanceMonitor.__init__ 60)
      MaintenanceMonitor.server MaintenanceMonitor.a_clock "/srv/empty"
    = (MaintenanceMonitor.__init__ 60,
       Ok (MaintenanceMonitor.error_record "Main file not found" MaintenanceMonitor.a_clock))
  ∧ MaintenanceMonitor.health_history
      (MaintenanceMonitor.health_check (MaintenanceMonitor.__init__ 60)
         MaintenanceMonitor.server MaintenanceMonitor.a_clock "/srv/empty").1
      !! MaintenanceMonitor.path_name "/srv/empty" = None.
Proof. repeat split. Qed.

Example health_check_recorded :
  ∃ r, (MaintenanceMonitor.health_check (MaintenanceMonitor.__init__ 60)
          MaintenanceMonitor.server MaintenanceMonitor.a_clock "/srv/app_1").2 = Ok r
       ∧ MaintenanceMonitor.health_history
           (MaintenanceMonitor.health_check (MaintenanceMonitor.__init__ 60)
              MaintenanceMonitor.server MaintenanceMonitor.a_clock "/srv/app_1").1 !! "app_1"
         = Some [r].
Proof. eexists. split; reflexivity. Qed.

(** [Path(p).name] by the rules of pathlib. *)
Lemma path_name_pathlib (p : string) :
  MaintenanceMonitor.path_name p = Path.name (Path.parse p).
Proof. reflexivity. Qed.

(* ===================================================================== *)
(** ** Log analysis *)
(* ===================================================================== *)

Lemma last_n_length {A} (n : nat) (l : list A) :
  length (last_n n l) = (n `min` length l)%nat.
Proof. unfold last_n. rewrite length_drop. lia. Qed.

Lemma last_n_suffix {A} (n : nat) (l : list A) : last_n n l `suffix_of` l.
Proof. apply suffix_drop. Qed.

Lemma split_nonempty (sep : ascii) (s : string) : split sep s ≠ [].
Proof.
  destruct s as [|c s]; simpl; [done|].
  destruct (Ascii.eqb c sep); [done|]. by destruct (split sep s).
Qed.

(** Splitting a text at a separator: the pieces before it, then the pieces
    after it. *)
Lemma split_app (sep : ascii) (a b : string) :
  split sep (a +:+ String sep b) = (split sep a ++ split sep b)%list.
Proof.
  induction a as [|c a IH].
  - change (split sep (String sep b) = ("" :: split sep b)). simpl.
    by rewrite Ascii.eqb_refl.
  - change (split sep (String c (a +:+ String sep b))
            = (split sep (String c a) ++ split sep b)%list).
    simpl. rewrite IH. destruct (Ascii.eqb c sep); [done|].
    pose proof (split_nonempty sep a). by destruct (split sep a).
Qed.

(** Lines are classified one by one: the matching lines of two logs put
    together are those of the first, then those of the second. *)
Lemma matching_lines_app (f : string → bool) (a b : string) :
  List.filter f (split (ascii_of_N 10) (a +:+ String (ascii_of_N 10) b))
  = (List.filter f (split (ascii_of_N 10) a) ++ List.filter f (split (ascii_of_N 10) b))%list.
Proof. by rewrite split_app, List.filter_app. Qed.

Lemma recent_spec (l : list string) :
  match l with [] => [] | _ => last_n 10 l end = last_n 10 l.
Proof. by destruct l. Qed.

(** C8. For every content of the log file, [errors] is the number of lines
    whose upper-cased text contains "ERROR" and [warnings] the number of
    lines whose upper-cased text contains "WARNING", each line being judged
    on its own and for both words; [recent_errors] and [recent_warnings] are
    the last ten such lines (all of them when there are fewer), in the order
    of the file. The upper-casing is the one of [str.upper], whatever it
    does outside ASCII. *)
Theorem analyze_logs_counts (w : MaintenanceMonitor.world) (now : datetime)
    (log_file content : string) :
  MaintenanceMonitor.logs w log_file = MaintenanceMonitor.Content content →
  ∃ a, MaintenanceMonitor.analyze_logs w now log_file = MaintenanceMonitor.AnalysisSuccess a
    ∧ let upper_cased := upper (MaintenanceMonitor.upper_table w) in
      let lines := split (ascii_of_N 10) content in
      let error_lines := List.filter (λ line, contains "ERROR" (upper_cased line)) lines in
      let warning_lines := List.filter (λ line, contains "WARNING" (upper_cased line)) lines in
      MaintenanceMonitor.total_lines a = length lines
      ∧ MaintenanceMonitor.errors a = length error_lines
      ∧ MaintenanceMonitor.warnings a = length warning_lines
      ∧ (∀ line, line ∈ error_lines ↔ line ∈ lines ∧ contains "ERROR" (upper_cased line) = true)
      ∧ (∀ line, line ∈ warning_lines
                 ↔ line ∈ lines ∧ contains "WARNING" (upper_cased line) = true)
      ∧ MaintenanceMonitor.recent_errors a `suffix_of` error_lines
      ∧ MaintenanceMonitor.recent_warnings a `suffix_of` warning_lines
      ∧ length (MaintenanceMonitor.recent_errors a)
        = (10 `min` MaintenanceMonitor.errors a)%nat
      ∧ length (MaintenanceMonitor.recent_warnings a)
        = (10 `min` MaintenanceMonitor.warnings a)%nat.
Proof.
  intros Hlog. unfold MaintenanceMonitor.analyze_logs. rewrite Hlog.
  eexists. split; [done|].
  cbn [MaintenanceMonitor.total_lines MaintenanceMonitor.errors MaintenanceMonitor.warnings
       MaintenanceMonitor.recent_errors MaintenanceMonitor.recent_warnings].
  rewrite !recent_spec.
  repeat apply conj; try done.
  - intros line. rewrite !list_elem_of_In, List.filter_In. tauto.
  - intros line. rewrite !list_elem_of_In, List.filter_In. tauto.
  - apply last_n_suffix.
  - apply last_n_suffix.
  - apply last_n_length.
  - apply last_n_length.
Qed.

Lemma analyze_logs_counts_witness :
  ∃ a, MaintenanceMonitor.analyze_logs MaintenanceMonitor.server MaintenanceMonitor.a_clock
         "/srv/mixed.log" = MaintenanceMonitor.AnalysisSuccess a
       ∧ MaintenanceMonitor.total_lines a = 5%nat
       ∧ MaintenanceMonitor.errors a = 3%nat
       ∧ MaintenanceMonitor.warnings a = 2%nat
       ∧ length (MaintenanceMonitor.recent_errors a) = 3%nat.
Proof.
  destruct (analyze_logs_counts MaintenanceMonitor.server MaintenanceMonitor.a_clock
              "/srv/mixed.log" MaintenanceMonitor.mixed_log eq_refl)
    as (a & Ha & Hl & He & Hw & _ & _ & _ & _ & Hr & _).
  exists a. split; [exact Ha|]. split; [rewrite Hl; reflexivity|].
  split; [rewrite He; reflexivity|]. split; [rewrite Hw; reflexivity|].
  rewrite Hr, He. reflexivity.
Defined.

Example analyze_logs_test_log :
  ∃ a, MaintenanceMonitor.analyze_logs MaintenanceMonitor.server MaintenanceMonitor.a_clock
         "/srv/test.log" = MaintenanceMonitor.AnalysisSuccess a
       ∧ MaintenanceMonitor.errors a = 2%nat
       ∧ MaintenanceMonitor.warnings a = 1%nat.
Proof. eexists. split; [reflexivity|]. split; reflexivity. Qed.

Example analyze_logs_both_words :
  MaintenanceMonitor.is_error_line MaintenanceMonitor.server "error while printing a warning"
    = true
  ∧ MaintenanceMonitor.is_warning_line MaintenanceMonitor.server
      "error while printing a warning" = true.
Proof. split; reflexivity. Qed.

(** Upper-casing is the one of Unicode: a line with a dotless i in its
    "warning" counts, a line that only resembles the word does not. *)
Example analyze_logs_dotless_i :
  MaintenanceMonitor.is_warning_line MaintenanceMonitor.server "warnıng: low memory" = true
  ∧ MaintenanceMonitor.is_warning_line MaintenanceMonitor.server "warn1ng: low memory" = false.
Proof. split; reflexivity. Qed.

(* ===================================================================== *)
(** ** The generator without a credential *)
(* ===================================================================== *)

(** C6, as the code has it. Without a credential the generator is
    constructed all the same, with no client; each of [generate_code],
    [refine_code] and [generate_tests] then raises the configuration error
    and sends nothing to the provider. *)
Theorem no_credential_raises (w : CodeGenerator.world) (api_key : option string)
    (model : string) :
  CodeGenerator.no_credential w api_key →
  ∃ g, CodeGenerator.__init__ w api_key model = Ok g
    ∧ CodeGenerator.client g = None
    ∧ (∀ requirement language context,
         CodeGenerator.generate_code g w requirement language context
         = ([], Raise (ValueError "OpenAI API key not configured")))
    ∧ (∀ code feedback language,
         CodeGenerator.refine_code g w code feedback language
         = ([], Raise (ValueError "OpenAI API key not configured")))
    ∧ (∀ code language,
         CodeGenerator.generate_tests g w code language
         = ([], Raise (ValueError "OpenAI API key not configured"))).
Proof.
  intros [Hkey Henv]. unfold CodeGenerator.__init__, CodeGenerator.or_.
  rewrite Hkey, Henv. eexists. split; [done|]. by repeat split.
Qed.

Lemma no_credential_raises_witness :
  CodeGenerator.no_credential CodeGenerator.bare None
  ∧ ∃ g, CodeGenerator.__init__ CodeGenerator.bare None "gpt-4" = Ok g
    ∧ CodeGenerator.generate_code g CodeGenerator.bare "test" "python" None
      = ([], Raise (ValueError "OpenAI API key not configured")).
Proof.
  assert (CodeGenerator.no_credential CodeGenerator.bare None) as Hno
    by (split; reflexivity).
  split; [exact Hno|].
  destruct (no_credential_raises CodeGenerator.bare None "gpt-4" Hno)
    as (g & Hg & _ & Hgen & _).
  exists g. split; [exact Hg|apply Hgen].
Defined.

(** C6 as stated fails: without a credential the construction of the
    generator does not raise. *)
Lemma generator_construction_succeeds :
  CodeGenerator.no_credential CodeGenerator.bare None
  ∧ CodeGenerator.__init__ CodeGenerator.bare None "gpt-4"
    = Ok {| CodeGenerator.api_key := None; CodeGenerator.model := "gpt-4";
            CodeGenerator.client := None |}
  ∧ ¬ ∃ e, CodeGenerator.__init__ CodeGenerator.bare None "gpt-4" = Raise e.
Proof.
  split; [by split|]. split; [reflexivity|]. by intros [e ?].
Qed.

(* ===================================================================== *)
(** ** The generator with and without a client *)
(* ===================================================================== *)

(** X1. The key argument is used when it is a non-empty string; an absent
    or empty key argument falls back to [OPENAI_API_KEY]. The generator has
    a client exactly when the key so chosen is a non-empty string, and the
    client then holds that key. *)
Theorem generator_credential_precedence (w : CodeGenerator.world) (key : option string)
    (model : string) :
  ∃ g, CodeGenerator.__init__ w key model = Ok g
    ∧ CodeGenerator.model g = model
    ∧ (CodeGenerator.truthy key = true → CodeGenerator.api_key g = key)
    ∧ (CodeGenerator.truthy key = false →
         CodeGenerator.api_key g = CodeGenerator.environ w !! "OPENAI_API_KEY")
    ∧ (is_Some (CodeGenerator.client g) ↔ CodeGenerator.truthy (CodeGenerator.api_key g) = true)
    ∧ (∀ c, CodeGenerator.client g = Some c →
            CodeGenerator.api_key g = Some (CodeGenerator.client_key c)).
Proof.
  unfold CodeGenerator.__init__, CodeGenerator.or_. eexists. split; [done|]. simpl.
  split; [done|]. split; [by intros ->|]. split; [by intros ->|].
  destruct (CodeGenerator.truthy (if CodeGenerator.truthy key then key else _)) eqn:Ht.
  - split; [by split; eauto|]. intros c [= <-]. simpl.
    by destruct (if CodeGenerator.truthy key then key else _) as [[]|].
  - split; [|done]. split; [by intros [? ?]|done].
Qed.

Lemma generator_credential_precedence_witness :
  ∃ g, CodeGenerator.__init__ CodeGenerator.keyed (Some "") "gpt-4" = Ok g
    ∧ CodeGenerator.api_key g = Some "sk-env"
    ∧ is_Some (CodeGenerator.client g).
Proof.
  destruct (generator_credential_precedence CodeGenerator.keyed (Some "") "gpt-4")
    as (g & Hg & _ & _ & Henv & Hclient & _).
  exists g. split; [exact Hg|].
  assert (CodeGenerator.api_key g = Some "sk-env") as Hkey by (apply Henv; reflexivity).
  split; [exact Hkey|]. apply Hclient. rewrite Hkey. reflexivity.
Defined.

(** X2. A generator with a client sends exactly one request per call of
    [generate_code], [refine_code] and [generate_tests], for its own model
    and with temperature 0.7; when the provider raises, the call raises the
    same exception and nothing is sent again. *)
Theorem generator_one_request (g : CodeGenerator.t) (w : CodeGenerator.world)
    (a b language : string) (context : option string) :
  is_Some (CodeGenerator.client g) →
  ∃ r1 r2 r3,
    (CodeGenerator.generate_code g w a language context).1 = [r1]
    ∧ (CodeGenerator.refine_code g w a b language).1 = [r2]
    ∧ (CodeGenerator.generate_tests g w a language).1 = [r3]
    ∧ Forall (λ r, CodeGenerator.req_model r = CodeGenerator.model g
                   ∧ (CodeGenerator.temperature r == 7 # 10)%Q) [r1; r2; r3]
    ∧ (∀ e, CodeGenerator.create w r1 = Raise e →
            (CodeGenerator.generate_code g w a language context).2 = Raise e)
    ∧ (∀ e, CodeGenerator.create w r2 = Raise e →
            (CodeGenerator.refine_code g w a b language).2 = Raise e)
    ∧ (∀ e, CodeGenerator.create w r3 = Raise e →
            (CodeGenerator.generate_tests g w a language).2 = Raise e).
Proof.
  intros [c Hc].
  unfold CodeGenerator.generate_code, CodeGenerator.refine_code,
    CodeGenerator.generate_tests. rewrite Hc. simpl.
  eexists _, _, _. split; [done|]. split; [done|]. split; [done|].
  split; [by repeat constructor|].
  repeat split; by intros e ->.
Qed.

Lemma generator_one_request_witness :
  ∃ g, CodeGenerator.__init__ CodeGenerator.keyed_down None "gpt-4" = Ok g
    ∧ length (CodeGenerator.refine_code g CodeGenerator.keyed_down "x = 1" "tidy" "python").1
      = 1%nat
    ∧ (CodeGenerator.refine_code g CodeGenerator.keyed_down "x = 1" "tidy" "python").2
      = Raise (Exception "Connection error.").
Proof.
  exists {| CodeGenerator.api_key := Some "sk-env"; CodeGenerator.model := "gpt-4";
            CodeGenerator.client := Some {| CodeGenerator.client_key := "sk-env" |} |}.
  split; [reflexivity|].
  destruct (generator_one_request
              {| CodeGenerator.api_key := Some "sk-env"; CodeGenerator.model := "gpt-4";
                 CodeGenerator.client := Some {| CodeGenerator.client_key := "sk-env" |} |}
              CodeGenerator.keyed_down "x = 1" "tidy" "python" None)
    as (r1 & r2 & r3 & _ & H2 & _ & _ & _ & Hraise & _).
  - by eexists.
  - split; [by rewrite H2|]. by apply Hraise.
Defined.

(** X3. When the provider answers, [generate_code] returns the first choice
    as code together with the language and requirement it was given, its
    model and the token count of the answer; further choices are ignored,
    and an answer without choices raises an [IndexError]. [refine_code] and
    [generate_tests] return the first choice in the same way. *)
Theorem generator_first_choice (g : CodeGenerator.t) (w : CodeGenerator.world)
    (a b language : string) (context : option string)
    (r1 r2 r3 : CodeGenerator.request) (answer1 answer2 answer3 : CodeGenerator.response) :
  (CodeGenerator.generate_code g w a language context).1 = [r1] →
  (CodeGenerator.refine_code g w a b language).1 = [r2] →
  (CodeGenerator.generate_tests g w a language).1 = [r3] →
  CodeGenerator.create w r1 = Ok answer1 →
  CodeGenerator.create w r2 = Ok answer2 →
  CodeGenerator.create w r3 = Ok answer3 →
  (CodeGenerator.generate_code g w a language context).2
  = match CodeGenerator.choices answer1 with
    | [] => Raise (IndexError "list index out of range")
    | first :: _ =>
        Ok {| CodeGenerator.code := first;
              CodeGenerator.language_of := language;
              CodeGenerator.requirement_of := a;
              CodeGenerator.model_of := CodeGenerator.model g;
              CodeGenerator.tokens_used := CodeGenerator.total_tokens answer1 |}
    end
  ∧ (CodeGenerator.refine_code g w a b language).2
    = match CodeGenerator.choices answer2 with
      | [] => Raise (IndexError "list index out of range")
      | first :: _ => Ok first
      end
  ∧ (CodeGenerator.generate_tests g w a language).2
    = match CodeGenerator.choices answer3 with
      | [] => Raise (IndexError "list index out of range")
      | first :: _ => Ok first
      end.
Proof.
  unfold CodeGenerator.generate_code, CodeGenerator.refine_code,
    CodeGenerator.generate_tests.
  destruct (CodeGenerator.client g); simpl; [|done].
  intros [= <-] [= <-] [= <-] -> -> ->. done.
Qed.

Lemma generator_first_choice_witness :
  ∃ g, CodeGenerator.__init__ CodeGenerator.keyed None "gpt-4" = Ok g
    ∧ (CodeGenerator.refine_code g CodeGenerator.keyed "x = 1" "tidy" "python").2
      = Ok "def hello(): pass".
Proof.
  exists {| CodeGenerator.api_key := Some "sk-env"; CodeGenerator.model := "gpt-4";
            CodeGenerator.client := Some {| CodeGenerator.client_key := "sk-env" |} |}.
  split; [reflexivity|].
  exact (proj1 (proj2 (generator_first_choice
    {| CodeGenerator.api_key := Some "sk-env"; CodeGenerator.model := "gpt-4";
       CodeGenerator.client := Some {| CodeGenerator.client_key := "sk-env" |} |}
    CodeGenerator.keyed "x = 1" "tidy" "python" None _ _ _
    {| CodeGenerator.choices := ["def hello(): pass"; "def other(): pass"];
       CodeGenerator.total_tokens := 100 |}
    {| CodeGenerator.choices := ["def hello(): pass"; "def other(): pass"];
       CodeGenerator.total_tokens := 100 |}
    {| CodeGenerator.choices := ["def hello(): pass"; "def other(): pass"];
       CodeGenerator.total_tokens := 100 |}
    eq_refl eq_refl eq_refl eq_refl eq_refl eq_refl))).
Defined.

(* ===================================================================== *)
(** ** More on the executor *)
(* ===================================================================== *)

(** X4. An executor built without docker, or built while the docker daemon
    cannot be reached, has no client and [use_docker = false]: its
    [execute_python] and its [_execute_in_docker] are [_execute_locally]. *)
Theorem executor_docker_fallback (w : CodeExecutor.world) (timeout : Z)
    (use_docker sandboxing : bool) (code language : string)
    (args : option (list string)) (env_vars : option (gmap string string)) :
  (use_docker = false ∨ ∃ e, CodeExecutor.docker_from_env w = Raise e) →
  let self := CodeExecutor.__init__ w timeout use_docker sandboxing in
  CodeExecutor.use_docker self = false
  ∧ CodeExecutor.docker_client self = false
  ∧ CodeExecutor.timeout self = timeout
  ∧ CodeExecutor.execute_python self w code args env_vars
    = CodeExecutor._execute_locally self w code "python" args env_vars
  ∧ CodeExecutor._execute_in_docker self w code language args env_vars
    = CodeExecutor._execute_locally self w code language args env_vars.
Proof.
  intros H self.
  assert (self = {| CodeExecutor.timeout := timeout; CodeExecutor.use_docker := false;
                    CodeExecutor.enable_sandboxing := sandboxing;
                    CodeExecutor.docker_client := false |}) as ->.
  { unfold self, CodeExecutor.__init__. destruct H as [->|[e ->]]; [done|].
    by destruct use_docker. }
  done.
Qed.

Lemma executor_docker_fallback_witness :
  CodeExecutor.execute_python
    (CodeExecutor.__init__ CodeExecutor.quick 300 true true) CodeExecutor.quick
    "print('Hello, World!')" None None
  = CodeExecutor._execute_locally
      (CodeExecutor.__init__ CodeExecutor.quick 300 true true) CodeExecutor.quick
      "print('Hello, World!')" "python" None None.
Proof.
  apply (executor_docker_fallback CodeExecutor.quick 300 true true
           "print('Hello, World!')" "python" None None).
  right. eexists. reflexivity.
Defined.



(** X6. Whether the temporary file can be deleted has no bearing on a local
    execution: two environments that differ in [os.unlink] only give the
    same outcome. *)
Theorem unlink_failure_swallowed (self : CodeExecutor.t) (w1 w2 : CodeExecutor.world)
    (code language : string) (args : option (list string))
    (env_vars : option (gmap string string)) :
  CodeExecutor.environ w1 = CodeExecutor.environ w2 →
  CodeExecutor.mktemp w1 = CodeExecutor.mktemp w2 →
  CodeExecutor.spawn w1 = CodeExecutor.spawn w2 →
  CodeExecutor._execute_locally self w1 code language args env_vars
  = CodeExecutor._execute_locally self w2 code language args env_vars.
Proof.
  intros Henv Hmk Hspawn.
  unfold CodeExecutor._execute_locally, CodeExecutor.local_run.
  rewrite Henv, Hmk, Hspawn.
  destruct (CodeExecutor.mktemp w2 _ code) as [temp_file|e]; simpl; [|done].
  by destruct (CodeExecutor.unlink w1 temp_file), (CodeExecutor.unlink w2 temp_file).
Qed.

Lemma unlink_failure_swallowed_witness :
  CodeExecutor._execute_locally (CodeExecutor.__init__ CodeExecutor.sleepy 1 false true)
    CodeExecutor.sleepy "import time; time.sleep(10)" "python" None None
  = CodeExecutor._execute_locally (CodeExecutor.__init__ CodeExecutor.sleepy 1 false true)
      CodeExecutor.sleepy_undeletable "import time; time.sleep(10)" "python" None None.
Proof.
  apply (unlink_failure_swallowed (CodeExecutor.__init__ CodeExecutor.sleepy 1 false true)
           CodeExecutor.sleepy CodeExecutor.sleepy_undeletable
           "import time; time.sleep(10)" "python" None None eq_refl eq_refl eq_refl).
Defined.

(** X7. Local and container mode build the same command line from the
    lower-cased language: python3 or node, then the file, then the arguments
    in their order; for every other language it is cat and the file, and the
    arguments are dropped. The image is node:18-slim for javascript and
    python:3.11-slim for every other language. *)
Theorem command_tables (language file : string) (args : option (list string)) :
  CodeExecutor._get_command language file args
  = (if decide (lower language = "python") then "python3" :: file :: default [] args
     else if decide (lower language = "javascript") then "node" :: file :: default [] args
     else ["cat"; file])
  ∧ CodeExecutor._get_container_command language file args
    = CodeExecutor._get_command language file args
  ∧ CodeExecutor._get_docker_image language
    = (if decide (lower language = "javascript") then "node:18-slim"
       else "python:3.11-slim").
Proof.
  unfold CodeExecutor._get_command, CodeExecutor._get_container_command,
    CodeExecutor._get_docker_image.
  cbv zeta. split; [|split; [done|]].
  - destruct (decide (lower language = "python")) as [->|Hpy]; [by simplify_map_eq|].
    destruct (decide (lower language = "javascript")) as [->|Hjs]; by simplify_map_eq.
  - destruct (decide (lower language = "javascript")) as [->|Hjs]; [by simplify_map_eq|].
    destruct (decide (lower language = "python")) as [->|Hpy]; by simplify_map_eq.
Qed.





(** X10. Container mode does not use the configured timeout: two executors
    with a client that differ in their timeout only give the same outcome. *)
Theorem docker_ignores_timeout (self : CodeExecutor.t) (w : CodeExecutor.world)
    (other_timeout : Z) (code language : string) (args : option (list string))
    (env_vars : option (gmap string string)) :
  CodeExecutor.docker_client self = true →
  CodeExecutor._execute_in_docker self w code language args env_vars
  = CodeExecutor._execute_in_docker
      {| CodeExecutor.timeout := other_timeout;
         CodeExecutor.use_docker := CodeExecutor.use_docker self;
         CodeExecutor.enable_sandboxing := CodeExecutor.enable_sandboxing self;
         CodeExecutor.docker_client := CodeExecutor.docker_client self |}
      w code language args env_vars.
Proof.
  intros Hclient. unfold CodeExecutor._execute_in_docker. rewrite Hclient. done.
Qed.

Lemma docker_ignores_timeout_witness :
  CodeExecutor._execute_in_docker
    (CodeExecutor.__init__ CodeExecutor.working_container 300 true true)
    CodeExecutor.working_container "print('Hello, World!')" "python" None None
  = CodeExecutor._execute_in_docker
      (CodeExecutor.__init__ CodeExecutor.working_container 0 true true)
      CodeExecutor.working_container "print('Hello, World!')" "python" None None.
Proof.
  apply (docker_ignores_timeout
           (CodeExecutor.__init__ CodeExecutor.working_container 300 true true)
           CodeExecutor.working_container 0 "print('Hello, World!')" "python" None None
           eq_refl).
Defined.

(* ===================================================================== *)
(** ** More on deployments *)
(* ===================================================================== *)

Section deployment_state.
Import Deployer.
Context (self : Deployer.t) (w : Deployer.world).

Lemma files_before_lookup (fs : gmap string node) n now :
  (∀ content, fs !! n ≠ Some (File content)) →
  <[n := Dir (files_before fs n now).1 (files_before fs n now).2]> fs
    !! n = Some (Dir (files_before fs n now).1 (files_before fs n now).2).
Proof. intros _. apply lookup_insert_eq. Qed.

Lemma mkdir_ok n now (fs fs' : gmap string node) :
  mkdir w n now fs = (Ok (), fs') →
  fs' = <[n := Dir (files_before fs n now).1 (files_before fs n now).2]> fs.
Proof.
  unfold mkdir, seq, guard, ret, raise, files_before.
  destruct (denied w (Mkdir n)); [done|].
  destruct (fs !! n) as [[content|files created]|] eqn:Hn; intros [= <-]; simpl.
  - by rewrite insert_id.
  - done.
Qed.

Lemma mkdir_frame n now (fs fs' : gmap string node) r m :
  mkdir w n now fs = (r, fs') → m ≠ n → fs' !! m = fs !! m.
Proof.
  unfold mkdir, seq, guard, ret, raise.
  destruct (denied w (Mkdir n)); [by intros [= <- <-]|].
  destruct (fs !! n) as [[content|files created]|] eqn:Hn; intros [= <- <-] Hne;
    [done..|]. by rewrite lookup_insert_ne.
Qed.

Lemma write_text_ok n file text (fs fs' : gmap string node) :
  write_text w n file text fs = (Ok (), fs') →
  ∃ files created, fs !! n = Some (Dir files created)
                   ∧ fs' = <[n := Dir (<[file := text]> files) created]> fs.
Proof.
  unfold write_text, seq, guard, ret, raise.
  destruct (denied w (WriteText n file)); [done|].
  destruct (fs !! n) as [[content|files created]|] eqn:Hn; intros [= <-]. eauto.
Qed.

Lemma write_text_frame n file text (fs fs' : gmap string node) r m :
  write_text w n file text fs = (r, fs') → m ≠ n → fs' !! m = fs !! m.
Proof.
  unfold write_text, seq, guard, ret, raise.
  destruct (denied w (WriteText n file)); [by intros [= <- <-]|].
  destruct (fs !! n) as [[content|files created]|] eqn:Hn; intros [= <- <-] Hne;
    [done| |done]. by rewrite lookup_insert_ne.
Qed.

(** The deployment root after a successful [deploy_code]. *)
Lemma deploy_code_state now later code name language md (fs fs' : gmap string node) r :
  deploy_code self w now later code name language md fs = (Ok r, fs') →
  success r = true →
  let dname := name +:+ "_" +:+ strftime_stamp now in
  let written := <["main." +:+ _get_extension language := code]> (files_before fs dname now).1 in
  fs' = <[dname :=
            Dir (<["README.md" := _generate_readme name language md later]>
                   (if truthy md
                    then <["metadata.json" := json_dumps w (default [] md)]> written
                    else written))
                (files_before fs dname now).2]> fs.
Proof.
  intros Hdeploy Hsuccess dname written.
  unfold deploy_code, catch, seq, ret in Hdeploy. fold dname in Hdeploy.
  destruct (mkdir w dname now fs) as [[[]|e] fs1] eqn:Hmk; [|by simplify_eq/=].
  apply mkdir_ok in Hmk as ->.
  destruct (write_text w dname _ code _) as [[[]|e] fs2] eqn:Hw1; [|by simplify_eq/=].
  apply write_text_ok in Hw1 as (files1 & c1 & Hl1 & ->).
  rewrite lookup_insert_eq in Hl1. injection Hl1 as <- <-.
  rewrite insert_insert_eq in Hdeploy. fold written in Hdeploy.
  destruct (truthy md).
  - destruct (write_text w dname "metadata.json" _ _) as [[[]|e] fs3] eqn:Hw2;
      [|by simplify_eq/=].
    apply write_text_ok in Hw2 as (files2 & c2 & Hl2 & ->).
    rewrite lookup_insert_eq in Hl2. injection Hl2 as <- <-.
    rewrite insert_insert_eq in Hdeploy.
    destruct (write_text w dname "README.md" _ _) as [[[]|e] fs4] eqn:Hw3;
      [|by simplify_eq/=].
    apply write_text_ok in Hw3 as (files3 & c3 & Hl3 & ->).
    rewrite lookup_insert_eq in Hl3. injection Hl3 as <- <-.
    rewrite insert_insert_eq in Hdeploy. by simplify_eq/=.
  - destruct (write_text w dname "README.md" _ _) as [[[]|e] fs4] eqn:Hw3;
      [|by simplify_eq/=].
    apply write_text_ok in Hw3 as (files3 & c3 & Hl3 & ->).
    rewrite lookup_insert_eq in Hl3. injection Hl3 as <- <-.
    rewrite insert_insert_eq in Hdeploy. by simplify_eq/=.
Qed.

(** Whatever its outcome, [deploy_code] changes its own directory only. *)
Lemma deploy_code_frame now later code name language md (fs fs' : gmap string node) r m :
  deploy_code self w now later code name language md fs = (r, fs') →
  m ≠ name +:+ "_" +:+ strftime_stamp now → fs' !! m = fs !! m.
Proof.
  unfold deploy_code, catch, seq, ret. intros Hdeploy Hne.
  destruct (mkdir w _ now fs) as [[[]|e] fs1] eqn:Hmk;
    pose proof (mkdir_frame _ _ _ _ _ m Hmk Hne) as E1; [|by simplify_eq/=].
  destruct (write_text w _ _ code fs1) as [[[]|e] fs2] eqn:Hw1;
    pose proof (write_text_frame _ _ _ _ _ _ m Hw1 Hne) as E2;
    [|simplify_eq/=; congruence].
  assert (∃ r3 fs3, (if truthy md
            then write_text w (name +:+ "_" +:+ strftime_stamp now) "metadata.json"
                   (json_dumps w (default [] md))
            else λ fs0, (Ok (), fs0)) fs2 = (r3, fs3) ∧ fs3 !! m = fs2 !! m)
    as (r3 & fs3 & Hw2 & E3).
  { destruct (truthy md).
    - destruct (write_text w _ "metadata.json" _ fs2) as [r3 fs3] eqn:Hw2.
      exists r3, fs3. split; [done|]. by eapply write_text_frame.
    - by exists (Ok ()), fs2. }
  rewrite Hw2 in Hdeploy. destruct r3 as [[]|e]; [|simplify_eq/=; congruence].
  destruct (write_text w _ "README.md" _ fs3) as [[[]|e] fs4] eqn:Hw3;
    pose proof (write_text_frame _ _ _ _ _ _ m Hw3 Hne) as E4;
    simplify_eq/=; congruence.
Qed.

Lemma main_file_name ext :
  "main." +:+ ext ≠ "README.md" ∧ "main." +:+ ext ≠ "metadata.json".
Proof. split; intros [=]. Qed.

End deployment_state.








Section listing.
Import Deployer.
Context (self : Deployer.t) (w : Deployer.world).

Lemma list_item_dir n files ctime :
  match list_item self w (n, Dir files ctime) with
  | Ok (Some d) => name d = n ∧ describes self w d files ctime
  | Ok None => False
  | Raise _ =>
      ∃ text, files !! "metadata.json" = Some text
              ∧ (is_Some (denied w (ReadText n "metadata.json"))
                 ∨ ∃ e, json_loads w text = Raise e)
  end.
Proof.
  unfold list_item, describes; simpl.
  destruct (files !! "metadata.json") as [text|] eqn:Hmd; simpl; [|done].
  destruct (denied w (ReadText n "metadata.json")) eqn:Hd; simpl; [by eauto|].
  destruct (json_loads w text) eqn:Hj; simpl; [done|]. by eauto.
Qed.

Lemma list_loop_run items acc :
  ∃ listed,
    list_loop self w items acc = (acc ++ listed)%list
    ∧ name <$> listed `prefix_of` dir_names items
    ∧ ((∀ n files ctime, (n, Dir files ctime) ∈ items →
          ∃ d, list_item self w (n, Dir files ctime) = Ok (Some d)) →
       name <$> listed = dir_names items)
    ∧ ∀ d, d ∈ listed →
        ∃ files ctime, (name d, Dir files ctime) ∈ items ∧ describes self w d files ctime.
Proof.
  revert acc. induction items as [|[n nd] items IH]; intros acc; simpl.
  { exists []. rewrite app_nil_r. repeat split; try done. by intros d ?%elem_of_nil. }
  destruct nd as [content|files ctime].
  - unfold list_item; simpl. destruct (IH acc) as (listed & -> & Hpre & Hall & Hdesc).
    exists listed. split; [done|]. split; [done|]. split.
    + intros Hok. apply Hall. intros n' f c Hin. apply Hok. by right.
    + intros d Hd. destruct (Hdesc d Hd) as (f & c & Hin & ?). exists f, c.
      split; [by right|done].
  - pose proof (list_item_dir n files ctime) as Hitem.
    destruct (list_item self w (n, Dir files ctime)) as [[d|]|e] eqn:Hli; [| done |].
    + destruct Hitem as [<- Hd0].
      destruct (IH (acc ++ [d])%list) as (listed & -> & Hpre & Hall & Hdesc).
      exists (d :: listed). rewrite <-app_assoc. split; [done|].
      split; [by apply prefix_cons|]. split.
      * intros Hok. cbn. f_equal. apply Hall. intros n' f c Hin. apply Hok. by right.
      * intros d' [->|Hd']%elem_of_cons.
        -- exists files, ctime. split; [by left|done].
        -- destruct (Hdesc d' Hd') as (f & c & Hin & ?). exists f, c.
           split; [by right|done].
    + exists []. rewrite app_nil_r. split; [done|]. split; [apply prefix_nil|]. split.
      * intros Hok. destruct (Hok n files ctime) as [d Hd]; [by left|congruence].
      * by intros d ?%elem_of_nil.
Qed.

Lemma dir_names_sublist items : dir_names items `sublist_of` items.*1.
Proof.
  induction items as [|[n [content|files ctime]] items IH]; cbn.
  - done.
  - by apply sublist_cons.
  - by apply sublist_skip.
Qed.

Lemma dir_names_map_to_list (fs : gmap string node) n :
  n ∈ dir_names (map_to_list fs) ↔ is_dir fs n.
Proof.
  unfold dir_names, is_dir. rewrite list_elem_of_omap. split.
  - intros ([n' [content|files ctime]] & Hin & Hsome); simplify_eq/=.
    exists files, ctime. by apply elem_of_map_to_list.
  - intros (files & ctime & Hn). exists (n, Dir files ctime).
    split; [by apply elem_of_map_to_list|done].
Qed.

Lemma list_deployments_run (fs : gmap string node) :
  ∃ ds, list_deployments self w fs = (Ok ds, fs)
    ∧ name <$> ds `prefix_of` dir_names (map_to_list fs)
    ∧ (listing_ok w fs → name <$> ds = dir_names (map_to_list fs))
    ∧ (is_Some (denied w Iterdir) → ds = [])
    ∧ ∀ d, d ∈ ds → ∃ files ctime, fs !! name d = Some (Dir files ctime)
                                   ∧ describes self w d files ctime.
Proof.
  unfold list_deployments, catch, seq, iterdir, guard, ret, raise.
  destruct (denied w Iterdir) eqn:Hiter; simpl.
  - exists []. split; [done|]. split; [apply prefix_nil|].
    split; [intros [? _]; congruence|].
    split; [done|]. by intros d ?%elem_of_nil.
  - destruct (list_loop_run (map_to_list fs) []) as (listed & Hloop & Hpre & Hall & Hdesc).
    exists listed. rewrite Hloop. split; [done|]. split; [done|]. split; [|split].
    + intros [_ Hok]. apply Hall. intros n files ctime Hin%elem_of_map_to_list.
      pose proof (list_item_dir n files ctime) as Hitem.
      destruct (list_item self w (n, Dir files ctime)) as [[d|]|e]; [by eauto|done|].
      destruct Hitem as (text & Hmd & Hbad).
      destruct (Hok n files ctime text Hin Hmd) as [Hread [md Hj]].
      destruct Hbad as [[? ?]|[e' ?]]; congruence.
    + by intros [? ?].
    + intros d Hd. destruct (Hdesc d Hd) as (f & c & Hin%elem_of_map_to_list & ?).
      by exists f, c.
Qed.

End listing.

(** X15. When nothing goes wrong while listing, [list_deployments] returns
    exactly one record per directory of the deployment root, in the order of
    the file system: plain files are left out, no name comes twice, and a
    name is listed exactly when it is a directory. *)
Theorem list_deployments_complete (self : Deployer.t) (w : Deployer.world)
    (fs : gmap string Deployer.node) :
  Deployer.listing_ok w fs →
  ∃ ds, Deployer.list_deployments self w fs = (Ok ds, fs)
    ∧ Deployer.name <$> ds = Deployer.dir_names (map_to_list fs)
    ∧ NoDup (Deployer.name <$> ds)
    ∧ (∀ n, n ∈ Deployer.name <$> ds ↔ Deployer.is_dir fs n).
Proof.
  intros Hok. destruct (list_deployments_run self w fs) as (ds & Hls & _ & Hall & _).
  exists ds. split; [done|]. rewrite (Hall Hok). split; [done|]. split.
  - apply (sublist_NoDup _ _ (NoDup_fst_map_to_list fs)), dir_names_sublist.
  - apply dir_names_map_to_list.
Qed.

Lemma list_deployments_complete_witness :
  ∃ ds, Deployer.list_deployments Deployer.tmp Deployer.permissive
          (<["notes.txt" := Deployer.File "x"]> Deployer.one_deployment)
        = (Ok ds, <["notes.txt" := Deployer.File "x"]> Deployer.one_deployment)
    ∧ Deployer.name <$> ds = ["app_20240105_120007"].
Proof.
  destruct (list_deployments_complete Deployer.tmp Deployer.permissive
              (<["notes.txt" := Deployer.File "x"]> Deployer.one_deployment))
    as (ds & Hls & Hnames & _).
  - split; [reflexivity|]. intros n files created text _ _.
    split; [reflexivity|]. exists []. reflexivity.
  - exists ds. split; [exact Hls|]. rewrite Hnames. reflexivity.
Defined.





(* ===================================================================== *)
(** ** Deploying into a git working tree *)
(* ===================================================================== *)



(** X19. A failed [deploy_to_git] undoes nothing. The result names the
    deployment and what has been done is an initial part of write, add,
    commit; a push is never among it. When the repository has remotes but
    none is called origin, or when the push is refused, the file is written
    and committed all the same. *)
Theorem deploy_to_git_failure (self : Deployer.t) (g : Deployer.git_world)
    (code name repo_path branch language : string) (actions : list Deployer.git_action)
    (n error : string) :
  Deployer.deploy_to_git self g code name repo_path branch language
  = (actions, Deployer.GitFailed n error) →
  let fp := path_join repo_path (name +:+ "." +:+ Deployer._get_extension language) in
  let steps := [Deployer.GitWrite fp code; Deployer.GitAdd [fp];
                Deployer.GitCommit ("Deploy " +:+ name +:+ " via GPTbuilderauto")] in
  n = name
  ∧ actions `prefix_of` steps
  ∧ (Deployer.repo_refused g repo_path = None →
     Deployer.git_write_refused g fp = None →
     Deployer.add_refused g [fp] = None →
     Deployer.commit_refused g ("Deploy " +:+ name +:+ " via GPTbuilderauto") = None →
     actions = steps
     ∧ Deployer.remote_names g repo_path ≠ []
     ∧ ("origin" ∉ Deployer.remote_names g repo_path
        ∨ is_Some (Deployer.push_refused g "origin" branch))).
Proof.
  intros Hgit fp steps. revert Hgit. unfold Deployer.deploy_to_git. fold fp.
  destruct (Deployer.repo_refused g repo_path).
  { intros [= <- <- _]. split; [done|]. split; [apply prefix_nil|done]. }
  destruct (Deployer.git_write_refused g fp).
  { intros [= <- <- _]. split; [done|]. split; [apply prefix_nil|done]. }
  destruct (Deployer.add_refused g [fp]).
  { intros [= <- <- _]. split; [done|]. split; [by exists (drop 1 steps)|done]. }
  destruct (Deployer.commit_refused g _).
  { intros [= <- <- _]. split; [done|]. split; [by exists (drop 2 steps)|done]. }
  destruct (Deployer.remote_names g repo_path) as [|r rs] eqn:Hremotes; [done|].
  case_bool_decide as Horigin.
  - destruct (Deployer.push_refused g "origin" branch) eqn:Hpush; [|done].
    intros [= <- <- _]. split; [done|]. split; [done|]. intros _ _ _ _.
    split; [done|]. split; [done|]. right. by eexists.
  - intros [= <- <- _]. split; [done|]. split; [done|]. intros _ _ _ _.
    split; [done|]. split; [done|]. by left.
Qed.

Lemma deploy_to_git_failure_witness :
  Deployer.deploy_to_git Deployer.tmp Deployer.upstream_repo "print(1)" "app" "/repo" "main"
    "python"
  = ([Deployer.GitWrite "/repo/app.py" "print(1)"; Deployer.GitAdd ["/repo/app.py"];
      Deployer.GitCommit "Deploy app via GPTbuilderauto"],
     Deployer.GitFailed "app" "Remote named 'origin' didn't exist").
Proof.
  destruct (deploy_to_git_failure Deployer.tmp Deployer.upstream_repo "print(1)" "app"
              "/repo" "main" "python"
              (Deployer.deploy_to_git Deployer.tmp Deployer.upstream_repo "print(1)" "app"
                 "/repo" "main" "python").1
              "app" "Remote named 'origin' didn't exist" eq_refl) as (_ & _ & Hdone).
  destruct (Hdone eq_refl eq_refl eq_refl eq_refl) as (_ & _ & _).
  reflexivity.
Defined.

(* ===================================================================== *)
(** ** Time stamps read back *)
(* ===================================================================== *)

Lemma digit_value_digit (n : Z) : digit_value (digit n) = Some (n `mod` 10).
Proof.
  unfold digit_value, digit.
  pose proof (Z.mod_pos_bound n 10 eq_refl) as Hb.
  rewrite N_ascii_embedding by lia.
  replace ((48 <=? 48 + Z.to_N (n `mod` 10))%N && (48 + Z.to_N (n `mod` 10) <=? 57)%N)
    with true by (symmetry; apply andb_true_intro; split; apply N.leb_le; lia).
  f_equal. lia.
Qed.

Lemma take_digits_digit (k : nat) (acc n : Z) (s : string) :
  take_digits (S k) acc (String (digit n) s) = take_digits k (10 * acc + n `mod` 10) s.
Proof. simpl. by rewrite digit_value_digit. Qed.

Lemma take_digits_d2 (acc n : Z) (s : string) :
  0 ≤ n → take_digits 2 acc (d2 n +:+ s) = Some (100 * acc + n `mod` 100, s).
Proof.
  intros Hn. change (d2 n +:+ s) with (String (digit (n `div` 10)) (String (digit n) s)).
  rewrite !take_digits_digit. simpl. do 2 f_equal.
  Z.to_euclidean_division_equations. lia.
Qed.

Lemma take_digits_d4 (acc n : Z) (s : string) :
  0 ≤ n → take_digits 4 acc (d4 n +:+ s) = Some (10000 * acc + n `mod` 10000, s).
Proof.
  intros Hn.
  change (d4 n +:+ s)
    with (String (digit ((n `div` 100) `div` 10)) (String (digit (n `div` 100))
            (String (digit (n `div` 10)) (String (digit n) s)))).
  rewrite !take_digits_digit. simpl. do 2 f_equal.
  Z.to_euclidean_division_equations. lia.
Qed.

Lemma take_digits_d6 (acc n : Z) (s : string) :
  0 ≤ n → take_digits 6 acc (d6 n +:+ s) = Some (1000000 * acc + n `mod` 1000000, s).
Proof.
  intros Hn.
  change (d6 n +:+ s)
    with (String (digit ((n `div` 10000) `div` 10)) (String (digit (n `div` 10000))
            (d4 n +:+ s))).
  rewrite 2!take_digits_digit, take_digits_d4 by lia. do 2 f_equal.
  Z.to_euclidean_division_equations. lia.
Qed.

Lemma take_char_head (c : ascii) (s : string) : take_char c (String c s) = Some s.
Proof. simpl. by rewrite Ascii.eqb_refl. Qed.

Lemma parse_isoformat_isoformat (d : datetime) :
  valid_datetime d → parse_isoformat (isoformat d) = Some d.
Proof.
  intros (Hy & Hm & Hd & Hh & Hmi & Hs & Hus).
  destruct d as [y m dd h mi sec us].
  cbn [year month day hour minute second microsecond] in *.
  unfold parse_isoformat, isoformat.
  cbn [year month day hour minute second microsecond].
  change (d4 y +:+ "-" +:+ ?s) with (d4 y +:+ String "-" s).
  rewrite take_digits_d4 by lia. cbn -[take_digits take_char].
  rewrite take_char_head. cbn -[take_digits take_char].
  change (d2 m +:+ "-" +:+ ?s) with (d2 m +:+ String "-" s).
  rewrite take_digits_d2 by lia. cbn -[take_digits take_char].
  rewrite take_char_head. cbn -[take_digits take_char].
  change (d2 dd +:+ "T" +:+ ?s) with (d2 dd +:+ String "T" s).
  rewrite take_digits_d2 by lia. cbn -[take_digits take_char].
  rewrite take_char_head. cbn -[take_digits take_char].
  change (d2 h +:+ ":" +:+ ?s) with (d2 h +:+ String ":" s).
  rewrite take_digits_d2 by lia. cbn -[take_digits take_char].
  rewrite take_char_head. cbn -[take_digits take_char].
  change (d2 mi +:+ ":" +:+ ?s) with (d2 mi +:+ String ":" s).
  rewrite take_digits_d2 by lia. cbn -[take_digits take_char].
  rewrite take_char_head. cbn -[take_digits take_char].
  rewrite take_digits_d2 by lia. cbn -[take_digits take_char].
  rewrite !Z.mod_small by lia.
  case_bool_decide as Hzero.
  - by rewrite Hzero.
  - change ("." +:+ d6 us) with (String "." (d6 us +:+ "")).
    cbn -[take_digits take_char]. rewrite take_char_head. cbn -[take_digits take_char].
    rewrite take_digits_d6 by lia. cbn. by rewrite Z.mod_small by lia.
Qed.

Lemma check_fields_real (d : datetime) : real_datetime d → check_fields d = true.
Proof.
  intros [(Hy & Hm & Hd & Hh & Hmi & Hs & Hus) Hday]. unfold check_fields.
  by rewrite !bool_decide_eq_true_2 by lia.
Qed.

Lemma fromisoformat_isoformat (d : datetime) :
  real_datetime d → fromisoformat (isoformat d) = Ok d.
Proof.
  intros Hd. unfold fromisoformat.
  rewrite parse_isoformat_isoformat by apply Hd. by rewrite check_fields_real.
Qed.

(* ===================================================================== *)
(** ** The order of clock readings *)
(* ===================================================================== *)

Ltac each_month m :=
  let H := fresh "Hmonth" in
  assert (m = 1 ∨ m = 2 ∨ m = 3 ∨ m = 4 ∨ m = 5 ∨ m = 6 ∨ m = 7 ∨ m = 8 ∨ m = 9
          ∨ m = 10 ∨ m = 11 ∨ m = 12) as H by lia;
  repeat (destruct H as [->|H]); [..|subst m].

Lemma days_before_year_succ (y : Z) :
  days_before_year (y + 1) = days_before_year y + 365 + (if is_leap y then 1 else 0).
Proof.
  unfold days_before_year, is_leap.
  replace (y + 1 - 1) with y by lia.
  repeat case_bool_decide; simpl; Z.to_euclidean_division_equations; lia.
Qed.

Lemma days_before_year_mono (y y' : Z) :
  y ≤ y' → days_before_year y ≤ days_before_year y'.
Proof. unfold days_before_year. intros. Z.to_euclidean_division_equations. lia. Qed.

Lemma day_of_year_bounds (y m d : Z) :
  1 ≤ m ≤ 12 → 1 ≤ d ≤ days_in_month y m →
  1 ≤ days_before_month y m + d ≤ 365 + (if is_leap y then 1 else 0).
Proof.
  intros Hm. each_month m; unfold days_in_month, days_before_month; simpl;
    destruct (is_leap y); simpl; lia.
Qed.

Lemma day_of_year_month (y m m' d d' : Z) :
  1 ≤ m → m < m' → m' ≤ 12 → d ≤ days_in_month y m → 1 ≤ d' →
  days_before_month y m + d < days_before_month y m' + d'.
Proof.
  intros Hm Hlt Hm'. each_month m; each_month m'; try lia;
    unfold days_in_month, days_before_month; simpl; destruct (is_leap y); simpl; lia.
Qed.

(** Day numbers follow the order of dates. *)
Lemma ymd2ord_lt (y m d y' m' d' : Z) :
  1 ≤ m ≤ 12 → 1 ≤ d ≤ days_in_month y m →
  1 ≤ m' ≤ 12 → 1 ≤ d' ≤ days_in_month y' m' →
  (y < y' ∨ y = y' ∧ (m < m' ∨ m = m' ∧ d < d')) →
  ymd2ord y m d < ymd2ord y' m' d'.
Proof.
  intros Hm Hd Hm' Hd' Hlt. unfold ymd2ord.
  destruct Hlt as [Hy|[<- [Hmm|[<- Hdd]]]].
  - pose proof (day_of_year_bounds y m d Hm Hd).
    pose proof (day_of_year_bounds y' m' d' Hm' Hd').
    pose proof (days_before_year_succ y).
    pose proof (days_before_year_mono (y + 1) y'). lia.
  - pose proof (day_of_year_month y m m' d d'). lia.
  - lia.
Qed.

(** [to_microseconds] follows the field-by-field order of readings. *)
Lemma to_microseconds_le (a b : datetime) :
  real_datetime a → real_datetime b →
  datetime_le a b ↔ to_microseconds a ≤ to_microseconds b.
Proof.
  intros [(Hy & Hm & Hd & Hh & Hmi & Hs & Hus) Hday]
         [(Hy' & Hm' & Hd' & Hh' & Hmi' & Hs' & Hus') Hday'].
  unfold datetime_le, to_microseconds.
  destruct (Z.lt_total (ymd2ord (year a) (month a) (day a))
                       (ymd2ord (year b) (month b) (day b))) as [Hlt|[Heq|Hgt]].
  - split; [intros _; lia|]. intros _.
    destruct (Z.lt_total (year a) (year b)) as [?|[Ey|?]]; [by left| |].
    + right. split; [done|].
      destruct (Z.lt_total (month a) (month b)) as [?|[Em|?]]; [by left| |].
      * right. split; [done|]. left. rewrite Ey, Em in Hlt. unfold ymd2ord in Hlt. lia.
      * exfalso. pose proof (ymd2ord_lt (year b) (month b) (day b)
                               (year a) (month a) (day a)). lia.
    + exfalso. pose proof (ymd2ord_lt (year b) (month b) (day b)
                             (year a) (month a) (day a)). lia.
  - assert (year a = year b ∧ month a = month b ∧ day a = day b) as (Ey & Em & Ed).
    { pose proof (ymd2ord_lt (year a) (month a) (day a) (year b) (month b) (day b)).
      pose proof (ymd2ord_lt (year b) (month b) (day b) (year a) (month a) (day a)).
      lia. }
    rewrite Heq. lia.
  - split; [|intros; lia]. intros Hle. exfalso.
    pose proof (ymd2ord_lt (year a) (month a) (day a) (year b) (month b) (day b)).
    assert (year a = year b → month a = month b → day a = day b →
            ymd2ord (year a) (month a) (day a) = ymd2ord (year b) (month b) (day b))
      by (by intros -> -> ->).
    lia.
Qed.

(* ===================================================================== *)
(** ** The health history *)
(* ===================================================================== *)

(** X20. A health check keeps the check interval and the histories of all
    other base names. When it raises, the monitor is as it was. A record it
    returns is stamped with the clock; one with status error carries a
    message and leaves the monitor as it was; any other record carries none
    and is appended to the history of the directory's base name. *)
Theorem health_check_appends (self : MaintenanceMonitor.t) (w : MaintenanceMonitor.world)
    (now : datetime) (p : string) :
  let m := (MaintenanceMonitor.health_check self w now p).1 in
  MaintenanceMonitor.check_interval m = MaintenanceMonitor.check_interval self
  ∧ (∀ k, k ≠ MaintenanceMonitor.path_name p →
       MaintenanceMonitor.health_history m !! k = MaintenanceMonitor.health_history self !! k)
  ∧ (∀ e, (MaintenanceMonitor.health_check self w now p).2 = Raise e → m = self)
  ∧ ∀ r, (MaintenanceMonitor.health_check self w now p).2 = Ok r →
      MaintenanceMonitor.timestamp r = isoformat now
      ∧ (MaintenanceMonitor.status_of r = MaintenanceMonitor.error →
           m = self ∧ is_Some (MaintenanceMonitor.message r))
      ∧ (MaintenanceMonitor.status_of r ≠ MaintenanceMonitor.error →
           MaintenanceMonitor.message r = None
           ∧ MaintenanceMonitor.health_history m !! MaintenanceMonitor.path_name p
             = Some (default [] (MaintenanceMonitor.health_history self
                                   !! MaintenanceMonitor.path_name p) ++ [r])%list).
Proof.
  intros m. unfold m. clear m.
  pose proof (health_check_outcome self w now p) as Hout. cbv zeta in Hout.
  destruct (MaintenanceMonitor.health_check self w now p) as [m [r|e]]; simpl in *.
  - destruct Hout as [Hstamp Hout]. case_bool_decide as Herr.
    + destruct Hout as [-> Hmsg]. split; [done|]. split; [done|]. split; [done|].
      intros r' [= <-]. split; [done|]. split; [done|]. by intros ?.
    + destruct Hout as [Hmsg ->]. simpl. split; [done|].
      split; [intros k Hk; by rewrite lookup_insert_ne|]. split; [done|].
      intros r' [= <-]. split; [done|]. split; [done|]. intros _.
      split; [done|]. by rewrite lookup_insert_eq.
  - destruct Hout as [-> _]. split; [done|]. split; [done|]. split; [done|]. done.
Qed.

Lemma health_check_appends_witness :
  ∃ r, (MaintenanceMonitor.health_check (MaintenanceMonitor.__init__ 60)
          MaintenanceMonitor.server MaintenanceMonitor.a_clock "/srv/app_2").2 = Ok r
    ∧ MaintenanceMonitor.health_history
        (MaintenanceMonitor.health_check (MaintenanceMonitor.__init__ 60)
           MaintenanceMonitor.server MaintenanceMonitor.a_clock "/srv/app_2").1 !! "app_2"
      = Some [r].
Proof.
  destruct (health_check_appends (MaintenanceMonitor.__init__ 60) MaintenanceMonitor.server
              MaintenanceMonitor.a_clock "/srv/app_2") as (_ & _ & _ & Happend).
  eexists. split; [reflexivity|].
  destruct (Happend _ eq_refl) as (_ & _ & Hrec).
  destruct Hrec as [_ Hrec]; [discriminate|]. exact Hrec.
Defined.

(** X21. The history is keyed by the last component of the path alone: the
    records of two deployment paths with the same base name end up, in the
    order of the checks, in one and the same history. *)
Theorem history_keyed_by_base_name (self : MaintenanceMonitor.t)
    (w1 w2 : MaintenanceMonitor.world) (now1 now2 : datetime) (p q : string)
    (r1 r2 : MaintenanceMonitor.HealthRecord) :
  MaintenanceMonitor.path_name p = MaintenanceMonitor.path_name q →
  let m1 := (MaintenanceMonitor.health_check self w1 now1 p).1 in
  let m2 := (MaintenanceMonitor.health_check m1 w2 now2 q).1 in
  (MaintenanceMonitor.health_check self w1 now1 p).2 = Ok r1 →
  (MaintenanceMonitor.health_check m1 w2 now2 q).2 = Ok r2 →
  MaintenanceMonitor.status_of r1 ≠ MaintenanceMonitor.error →
  MaintenanceMonitor.status_of r2 ≠ MaintenanceMonitor.error →
  MaintenanceMonitor.health_history m2 !! MaintenanceMonitor.path_name p
  = Some (default [] (MaintenanceMonitor.health_history self
                        !! MaintenanceMonitor.path_name p) ++ [r1; r2])%list.
Proof.
  intros Hname m1 m2 Hr1 Hr2 H1 H2.
  destruct (health_check_appends self w1 now1 p) as (_ & _ & _ & Ha1).
  destruct (health_check_appends m1 w2 now2 q) as (_ & _ & _ & Ha2).
  destruct (Ha1 r1 Hr1) as (_ & _ & Ha1'). destruct (Ha2 r2 Hr2) as (_ & _ & Ha2').
  destruct (Ha1' H1) as [_ E1]. destruct (Ha2' H2) as [_ E2].
  fold m1 in E1. fold m2 in E2.
  rewrite <-Hname in E2. rewrite E2, E1. simpl. by rewrite <-app_assoc.
Qed.

Lemma history_keyed_by_base_name_witness :
  length <$>
    MaintenanceMonitor.health_history
      (MaintenanceMonitor.health_check
         (MaintenanceMonitor.health_check (MaintenanceMonitor.__init__ 60)
            MaintenanceMonitor.two_trees MaintenanceMonitor.a_clock "/srv/app_1").1
         MaintenanceMonitor.two_trees MaintenanceMonitor.an_hour_later "/backup/app_1").1
      !! "app_1"
  = Some 2%nat.
Proof.
  pose proof (history_keyed_by_base_name (MaintenanceMonitor.__init__ 60)
                MaintenanceMonitor.two_trees MaintenanceMonitor.two_trees
                MaintenanceMonitor.a_clock MaintenanceMonitor.an_hour_later
                "/srv/app_1" "/backup/app_1" _ _ eq_refl eq_refl eq_refl) as H.
  cbv zeta in H. change (MaintenanceMonitor.path_name "/srv/app_1") with "app_1" in H.
  rewrite H; [reflexivity|discriminate|discriminate].
Defined.

Section history.
Import MaintenanceMonitor.

Lemma history_loop_sublist cutoff records l :
  history_loop cutoff records = Ok l → l `sublist_of` records.
Proof.
  revert l. induction records as [|r records IH]; intros l; simpl; [by intros [= <-]|].
  destruct (fromisoformat (timestamp r)) as [d|e]; simpl; [|done].
  destruct (history_loop cutoff records) as [l'|e]; simpl; [|done].
  intros [= <-]. case_bool_decide; [apply sublist_skip|apply sublist_cons]; by apply IH.
Qed.

Lemma within_stamp cutoff r d :
  real_datetime d → timestamp r = isoformat d →
  within cutoff r ↔ cutoff ≤ to_microseconds d.
Proof.
  intros Hd Hr. split; [|by exists d].
  intros (d' & Hd' & Hr' & Hle).
  assert (Ok (E:=exn) d = Ok d') as [= ->]; [|done].
  by rewrite <-(fromisoformat_isoformat d), <-(fromisoformat_isoformat d'), <-Hr, <-Hr'.
Qed.

Lemma history_loop_stamped cutoff records :
  (∀ r, r ∈ records → ∃ d, real_datetime d ∧ timestamp r = isoformat d) →
  ∃ l, history_loop cutoff records = Ok l
       ∧ ∀ r, r ∈ l ↔ r ∈ records ∧ within cutoff r.
Proof.
  induction records as [|r records IH]; intros Hstamped; simpl.
  { exists []. split; [done|]. intros r. rewrite elem_of_nil. tauto. }
  destruct (Hstamped r) as (d & Hd & Hr); [by left|].
  rewrite Hr, fromisoformat_isoformat by done. simpl.
  destruct IH as (l & -> & Hl); [intros r' ?; apply Hstamped; by right|]. simpl.
  eexists. split; [done|]. intros r'.
  pose proof (within_stamp cutoff r d Hd Hr) as Hwithin.
  case_bool_decide; rewrite !elem_of_cons, Hl; split.
  - intros [->|[? ?]]; [split; [by left|tauto]|split; [by right|done]].
  - intros [[->|?] ?]; [by left|by right].
  - intros [? ?]. split; [by right|done].
  - intros [[->|?] ?]; [tauto|done].
Qed.

Lemma history_loop_app cutoff a b la lb :
  history_loop cutoff a = Ok la → history_loop cutoff b = Ok lb →
  history_loop cutoff (a ++ b) = Ok (la ++ lb)%list.
Proof.
  revert la. induction a as [|r a IH]; intros la; simpl; [by intros [= <-]|].
  destruct (fromisoformat (timestamp r)) as [d|e]; simpl; [|done].
  destruct (history_loop cutoff a) as [la'|e]; simpl; [|done].
  intros [= <-] Hb. rewrite (IH la' eq_refl Hb). simpl. by case_bool_decide.
Qed.

End history.

(** X22. Health checks keep the history well kept: every record in it has
    status healthy or warning and no message, bears a time stamp written by
    [isoformat] from a reading of the clock, and no base name has an empty
    history. A new monitor is well kept, and [auto_fix] changes nothing. *)
Theorem history_invariant (self : MaintenanceMonitor.t) (w : MaintenanceMonitor.world)
    (now : datetime) (p issue : string) (interval : Z) :
  MaintenanceMonitor.well_kept (MaintenanceMonitor.__init__ interval)
  ∧ (MaintenanceMonitor.auto_fix self now p issue).1 = self
  ∧ (real_datetime now → MaintenanceMonitor.well_kept self →
     MaintenanceMonitor.well_kept (MaintenanceMonitor.health_check self w now p).1).
Proof.
  split; [|split; [done|]].
  { split; [|split].
    - intros k rs r Hk. simpl in Hk. by rewrite lookup_empty in Hk.
    - intros k rs r Hk. simpl in Hk. by rewrite lookup_empty in Hk.
    - intros k rs Hk. simpl in Hk. by rewrite lookup_empty in Hk. }
  intros Hnow (Hstamped & Hfree & Hnonempty).
  destruct (health_check_appends self w now p) as (_ & Hother & Hraise & Hret).
  destruct ((MaintenanceMonitor.health_check self w now p).2) as [new|e] eqn:Hnew;
    [|by rewrite (Hraise e eq_refl)].
  destruct (Hret new eq_refl) as (Hstamp & Herr & Happ).
  destruct (decide (MaintenanceMonitor.status_of new = MaintenanceMonitor.error)) as [He|He].
  { destruct (Herr He) as [-> _]. done. }
  destruct (Happ He) as [Hmsg Hlook].
  assert (∀ k rs, MaintenanceMonitor.health_history
                    (MaintenanceMonitor.health_check self w now p).1 !! k = Some rs →
            rs ≠ [] ∧ ∀ r, r ∈ rs →
              r = new
              ∨ ∃ rs', MaintenanceMonitor.health_history self !! k = Some rs' ∧ r ∈ rs')
    as Hcases.
  { intros k rs Hk. destruct (decide (k = MaintenanceMonitor.path_name p)) as [->|Hne].
    - rewrite Hlook in Hk. injection Hk as <-. split; [by intros [? ?]%app_eq_nil|].
      intros r [Hr|Hr]%elem_of_app;
        [|apply list_elem_of_singleton in Hr as ->; by left]. right.
      destruct (MaintenanceMonitor.health_history self !! _) as [old|]; [by eauto|].
      by apply elem_of_nil in Hr.
    - rewrite Hother in Hk by done. split; [by eapply Hnonempty|]. by eauto. }
  split; [|split].
  - intros k rs r Hk Hr. destruct (Hcases k rs Hk) as [_ Hin].
    destruct (Hin r Hr) as [->|(rs' & ? & ?)]; [by exists now|by eapply Hstamped].
  - intros k rs r Hk Hr. destruct (Hcases k rs Hk) as [_ Hin].
    destruct (Hin r Hr) as [->|(rs' & ? & ?)]; [done|by eapply Hfree].
  - intros k rs Hk. by destruct (Hcases k rs Hk).
Qed.

Lemma history_invariant_witness :
  MaintenanceMonitor.well_kept
    (MaintenanceMonitor.health_check (MaintenanceMonitor.__init__ 60)
       MaintenanceMonitor.server MaintenanceMonitor.a_clock "/srv/app_2").1.
Proof.
  destruct (history_invariant (MaintenanceMonitor.__init__ 60) MaintenanceMonitor.server
              MaintenanceMonitor.a_clock "/srv/app_2" "" 60) as (Hnew & _ & Hkeep).
  apply Hkeep; [|exact Hnew]. by repeat split.
Defined.

(** X23. On a history stamped by the clock, [get_health_history] returns
    the stored records of the name whose time stamp is not older than the
    window, [hours] before the current time, in the order they were
    stored. *)
Theorem get_health_history_window (self : MaintenanceMonitor.t) (now : datetime)
    (name : string) (hours cutoff : Z) (records : list MaintenanceMonitor.HealthRecord) :
  MaintenanceMonitor.stamped self →
  MaintenanceMonitor.health_history self !! name = Some records →
  minus_hours now hours = Ok cutoff →
  cutoff = to_microseconds now - hours * 3600000000
  ∧ ∃ l, MaintenanceMonitor.get_health_history self now name hours = Ok l
      ∧ l `sublist_of` records
      ∧ ∀ r, r ∈ l ↔ r ∈ records ∧ MaintenanceMonitor.within cutoff r.
Proof.
  intros Hstamped Hlook Hcut. split.
  { revert Hcut. unfold minus_hours. case_bool_decide; by intros [= <-]. }
  unfold MaintenanceMonitor.get_health_history. rewrite Hlook, Hcut. simpl.
  destruct (history_loop_stamped cutoff records) as (l & Hl & Hin);
    [intros r Hr; by eapply Hstamped|].
  exists l. split; [done|]. split; [by eapply history_loop_sublist|done].
Qed.

Lemma get_health_history_window_witness :
  MaintenanceMonitor.get_health_history
    (MaintenanceMonitor.health_check (MaintenanceMonitor.__init__ 60)
       MaintenanceMonitor.server MaintenanceMonitor.a_clock "/srv/app_1").1
    MaintenanceMonitor.an_hour_later "app_1" 0
  = Ok [].
Proof.
  destruct (get_health_history_window
              (MaintenanceMonitor.health_check (MaintenanceMonitor.__init__ 60)
                 MaintenanceMonitor.server MaintenanceMonitor.a_clock "/srv/app_1").1
              MaintenanceMonitor.an_hour_later "app_1" 0
              (to_microseconds MaintenanceMonitor.an_hour_later)
              [(MaintenanceMonitor.inspect (MaintenanceMonitor.__init__ 60)
                  (MaintenanceMonitor.look MaintenanceMonitor.server "/srv/app_1")
                  MaintenanceMonitor.a_clock "/srv/app_1").2])
    as (_ & l & Hl & _ & _).
  - intros name records r Hname Hr. exists MaintenanceMonitor.a_clock.
    destruct (decide (name = "app_1")) as [->|Hne].
    + injection Hname as <-. apply list_elem_of_singleton in Hr as ->.
      split; [by repeat split|reflexivity].
    + cbn in Hname. by rewrite lookup_insert_ne, lookup_empty in Hname.
  - reflexivity.
  - reflexivity.
  - reflexivity.
Defined.

(** X24. For a name without history [get_health_history] returns the empty
    list whatever the window, and [generate_report] the sentence "No health
    history available for <name>". For a name with history, a window that
    reaches outside the years 1 to 9999 makes [get_health_history] raise. *)
Theorem get_health_history_unknown (percent : nat → nat → string)
    (self : MaintenanceMonitor.t) (now generated : datetime) (name : string) (hours : Z) :
  (MaintenanceMonitor.health_history self !! name = None →
     MaintenanceMonitor.get_health_history self now name hours = Ok []
     ∧ MaintenanceMonitor.generate_report percent self now generated name
       = Ok ("No health history available for " +:+ name))
  ∧ (is_Some (MaintenanceMonitor.health_history self !! name) →
     ¬ 1 ≤ (to_microseconds now - hours * 3600000000) `div` 86400000000 ≤ 3652059 →
     ∃ e, MaintenanceMonitor.get_health_history self now name hours = Raise e).
Proof.
  unfold MaintenanceMonitor.generate_report, MaintenanceMonitor.get_health_history.
  split.
  - by intros ->.
  - intros [records ->] Hout. unfold minus_hours.
    rewrite bool_decide_eq_false_2 by done. by eexists.
Qed.

Lemma get_health_history_unknown_witness :
  MaintenanceMonitor.generate_report (λ _ _, "0.0") (MaintenanceMonitor.__init__ 60)
    MaintenanceMonitor.a_clock MaintenanceMonitor.a_clock "app_1"
  = Ok "No health history available for app_1"
  ∧ ∃ e, MaintenanceMonitor.get_health_history
           (MaintenanceMonitor.health_check (MaintenanceMonitor.__init__ 60)
              MaintenanceMonitor.server MaintenanceMonitor.a_clock "/srv/app_1").1
           MaintenanceMonitor.a_clock "app_1" 100000000 = Raise e.
Proof.
  split.
  - apply (proj1 (get_health_history_unknown (λ _ _, "0.0") (MaintenanceMonitor.__init__ 60)
                    MaintenanceMonitor.a_clock MaintenanceMonitor.a_clock "app_1" 24)).
    reflexivity.
  - apply (proj2 (get_health_history_unknown (λ _ _, "0.0")
                    (MaintenanceMonitor.health_check (MaintenanceMonitor.__init__ 60)
                       MaintenanceMonitor.server MaintenanceMonitor.a_clock "/srv/app_1").1
                    MaintenanceMonitor.a_clock MaintenanceMonitor.a_clock "app_1"
                    100000000)).
    + by eexists.
    + vm_compute. intros [H _]. by apply H.
Defined.

(** X25. A health check that did not end in an error is found again: on a
    history stamped by the clock, a later [get_health_history] for the base
    name of the path, with a window that reaches back to the time of the
    check, returns a list that ends with the record of that check. *)
Theorem health_check_then_history (self : MaintenanceMonitor.t)
    (w : MaintenanceMonitor.world) (now later : datetime) (p : string) (hours cutoff : Z)
    (r : MaintenanceMonitor.HealthRecord) :
  MaintenanceMonitor.stamped self →
  real_datetime now →
  (MaintenanceMonitor.health_check self w now p).2 = Ok r →
  MaintenanceMonitor.status_of r ≠ MaintenanceMonitor.error →
  minus_hours later hours = Ok cutoff →
  cutoff ≤ to_microseconds now →
  ∃ l, MaintenanceMonitor.get_health_history
         (MaintenanceMonitor.health_check self w now p).1 later
         (MaintenanceMonitor.path_name p) hours = Ok l
    ∧ last l = Some r.
Proof.
  intros Hstamped Hnow Hr Hok Hcut Hle.
  destruct (health_check_appends self w now p) as (_ & _ & _ & Hret).
  destruct (Hret r Hr) as (Hstamp & _ & Happ).
  destruct (Happ Hok) as [_ Hlook].
  unfold MaintenanceMonitor.get_health_history. rewrite Hlook, Hcut. simpl.
  destruct (history_loop_stamped cutoff
              (default [] (MaintenanceMonitor.health_history self
                             !! MaintenanceMonitor.path_name p))) as (la & Hla & _).
  { intros r' Hr'.
    destruct (MaintenanceMonitor.health_history self !! _) as [old|] eqn:Hold;
      [by eapply Hstamped|by apply elem_of_nil in Hr']. }
  erewrite history_loop_app; [|exact Hla|].
  - eexists. split; [done|]. apply last_snoc.
  - simpl. rewrite Hstamp, fromisoformat_isoformat by done. simpl.
    by rewrite bool_decide_eq_true_2.
Qed.

Lemma health_check_then_history_witness :
  ∃ l r, MaintenanceMonitor.get_health_history
         (MaintenanceMonitor.health_check (MaintenanceMonitor.__init__ 60)
            MaintenanceMonitor.server MaintenanceMonitor.a_clock "/srv/app_1").1
         MaintenanceMonitor.an_hour_later "app_1" 24 = Ok l
    ∧ (MaintenanceMonitor.health_check (MaintenanceMonitor.__init__ 60)
         MaintenanceMonitor.server MaintenanceMonitor.a_clock "/srv/app_1").2 = Ok r
    ∧ last l = Some r.
Proof.
  destruct (health_check_then_history (MaintenanceMonitor.__init__ 60)
              MaintenanceMonitor.server MaintenanceMonitor.a_clock
              MaintenanceMonitor.an_hour_later "/srv/app_1" 24
              (to_microseconds MaintenanceMonitor.an_hour_later - 24 * 3600000000)
              (MaintenanceMonitor.inspect (MaintenanceMonitor.__init__ 60)
                 (MaintenanceMonitor.look MaintenanceMonitor.server "/srv/app_1")
                 MaintenanceMonitor.a_clock "/srv/app_1").2) as (l & Hl & Hlast).
  - intros name records r Hname. cbn in Hname. by rewrite lookup_empty in Hname.
  - by repeat split.
  - reflexivity.
  - discriminate.
  - reflexivity.
  - vm_compute. discriminate.
  - exists l. eexists. split; [exact Hl|]. split; [reflexivity|exact Hlast].
Defined.

Lemma count_status_error_free (history : list MaintenanceMonitor.HealthRecord) :
  (∀ r, r ∈ history → MaintenanceMonitor.status_of r ≠ MaintenanceMonitor.error) →
  MaintenanceMonitor.count_status MaintenanceMonitor.error history = 0%nat
  ∧ (MaintenanceMonitor.count_status MaintenanceMonitor.healthy history
     + MaintenanceMonitor.count_status MaintenanceMonitor.warning history
     = length history)%nat.
Proof.
  unfold MaintenanceMonitor.count_status.
  induction history as [|r history IH]; intros Hfree; [done|].
  destruct IH as [IH0 IH1]; [intros r' ?; apply Hfree; by right|].
  assert (MaintenanceMonitor.status_of r ≠ MaintenanceMonitor.error) by (apply Hfree; by left).
  simpl. destruct (MaintenanceMonitor.status_of r); simpl; [lia..|done].
Qed.

(** X26. Because no error record ever enters the history, a report over an
    error-free history counts 0 errors, its healthy and warning counts add
    up to the number of checks, and every issue it lists reads "warning: No
    details". *)
Theorem report_never_shows_errors (percent : nat → nat → string)
    (self : MaintenanceMonitor.t) (now generated : datetime) (name : string)
    (history : list MaintenanceMonitor.HealthRecord) :
  MaintenanceMonitor.error_free self →
  MaintenanceMonitor.get_health_history self now name 24 = Ok history →
  history ≠ [] →
  MaintenanceMonitor.generate_report percent self now generated name
  = Ok (MaintenanceMonitor.report_text percent name generated history)
  ∧ MaintenanceMonitor.count_status MaintenanceMonitor.error history = 0%nat
  ∧ (MaintenanceMonitor.count_status MaintenanceMonitor.healthy history
     + MaintenanceMonitor.count_status MaintenanceMonitor.warning history
     = length history)%nat
  ∧ ∀ issue, issue ∈ history →
      MaintenanceMonitor.status_of issue ≠ MaintenanceMonitor.healthy →
      MaintenanceMonitor.issue_line issue
      = MaintenanceMonitor.nl +:+ "- [" +:+ MaintenanceMonitor.timestamp issue
        +:+ "] warning: No details".
Proof.
  intros Hfree Hget Hne.
  assert (∀ r, r ∈ history →
            MaintenanceMonitor.status_of r ≠ MaintenanceMonitor.error
            ∧ MaintenanceMonitor.message r = None) as Hall.
  { revert Hget. unfold MaintenanceMonitor.get_health_history.
    destruct (MaintenanceMonitor.health_history self !! name) as [records|] eqn:Hlook;
      [|by intros [= <-]].
    destruct (minus_hours now 24) as [cutoff|e]; simpl; [|done].
    intros Hloop%history_loop_sublist r Hr. eapply Hfree; [done|].
    by eapply elem_of_sublist. }
  split; [|split; [|split]].
  - unfold MaintenanceMonitor.generate_report. rewrite Hget. simpl. by destruct history.
  - apply count_status_error_free. intros r Hr. by apply Hall.
  - apply count_status_error_free. intros r Hr. by apply Hall.
  - intros issue Hin Hissue. destruct (Hall issue Hin) as [Herr Hmsg].
    unfold MaintenanceMonitor.issue_line. rewrite Hmsg.
    by destruct (MaintenanceMonitor.status_of issue).
Qed.

Lemma report_never_shows_errors_witness :
  MaintenanceMonitor.count_status MaintenanceMonitor.error
    [(MaintenanceMonitor.inspect (MaintenanceMonitor.__init__ 60)
        (MaintenanceMonitor.look MaintenanceMonitor.server "/srv/app_2")
        MaintenanceMonitor.a_clock "/srv/app_2").2] = 0%nat.
Proof.
  destruct (report_never_shows_errors (λ _ _, "0.0")
              (MaintenanceMonitor.health_check (MaintenanceMonitor.__init__ 60)
                 MaintenanceMonitor.server MaintenanceMonitor.a_clock "/srv/app_2").1
              MaintenanceMonitor.an_hour_later MaintenanceMonitor.an_hour_later "app_2"
              [(MaintenanceMonitor.inspect (MaintenanceMonitor.__init__ 60)
                  (MaintenanceMonitor.look MaintenanceMonitor.server "/srv/app_2")
                  MaintenanceMonitor.a_clock "/srv/app_2").2])
    as (_ & Hzero & _).
  - intros name records r Hname Hr.
    destruct (decide (name = "app_2")) as [->|Hne].
    + injection Hname as <-. apply list_elem_of_singleton in Hr as ->.
      split; [discriminate|reflexivity].
    + cbn in Hname. by rewrite lookup_insert_ne, lookup_empty in Hname.
  - reflexivity.
  - discriminate.
  - exact Hzero.
Defined.

(* ===================================================================== *)
(** ** More on log analysis *)
(* ===================================================================== *)

Lemma split_length (sep : ascii) (s : string) :
  length (split sep s) = S (count_occ Ascii.ascii_dec (list_ascii_of_string s) sep).
Proof.
  induction s as [|c s IH]; simpl; [done|].
  destruct (Ascii.eqb_spec c sep) as [->|Hne].
  - destruct (Ascii.ascii_dec sep sep); [|done]. simpl. by rewrite IH.
  - destruct (Ascii.ascii_dec c sep); [done|].
    rewrite <-IH. pose proof (split_nonempty sep s). by destruct (split sep s).
Qed.

Lemma filter_length_bound {A} (f : A → bool) (l : list A) :
  (length (List.filter f l) ≤ length l)%nat.
Proof. induction l as [|x l IH]; simpl; [done|]. destruct (f x); simpl; lia. Qed.

(** X27. For a readable log, [total_lines] is one more than the number of
    newline characters of the content (an empty file has one line, a final
    newline adds an empty line), and neither [errors] nor [warnings]
    exceeds it. *)
Theorem total_lines_newlines (w : MaintenanceMonitor.world) (now : datetime)
    (log_file content : string) :
  MaintenanceMonitor.logs w log_file = MaintenanceMonitor.Content content →
  ∃ a, MaintenanceMonitor.analyze_logs w now log_file = MaintenanceMonitor.AnalysisSuccess a
    ∧ MaintenanceMonitor.total_lines a
      = S (count_occ Ascii.ascii_dec (list_ascii_of_string content) (ascii_of_N 10))
    ∧ (MaintenanceMonitor.errors a ≤ MaintenanceMonitor.total_lines a)%nat
    ∧ (MaintenanceMonitor.warnings a ≤ MaintenanceMonitor.total_lines a)%nat.
Proof.
  intros Hlog. unfold MaintenanceMonitor.analyze_logs. rewrite Hlog.
  eexists. split; [done|].
  cbn [MaintenanceMonitor.total_lines MaintenanceMonitor.errors MaintenanceMonitor.warnings].
  split; [apply split_length|]. split; apply filter_length_bound.
Qed.

Lemma total_lines_newlines_witness :
  ∃ a, MaintenanceMonitor.analyze_logs MaintenanceMonitor.server MaintenanceMonitor.a_clock
         "/srv/test.log" = MaintenanceMonitor.AnalysisSuccess a
    ∧ MaintenanceMonitor.total_lines a = 7%nat.
Proof.
  destruct (total_lines_newlines MaintenanceMonitor.server MaintenanceMonitor.a_clock
              "/srv/test.log" MaintenanceMonitor.test_log eq_refl) as (a & Ha & Hlines & _).
  exists a. split; [exact Ha|]. rewrite Hlines. reflexivity.
Defined.

Lemma upper_lower_ascii c : upper_ascii (lower_ascii c) = upper_ascii c.
Proof. by destruct c as [[] [] [] [] [] [] [] []]. Qed.

Lemma is_ascii_lower c : is_ascii (lower_ascii c) = is_ascii c.
Proof. by destruct c as [[] [] [] [] [] [] [] []]. Qed.

Lemma lower_ascii_other c : is_ascii c = false → lower_ascii c = c.
Proof. by destruct c as [[] [] [] [] [] [] [] []]. Qed.

Lemma upper_from_lower table pending s :
  upper_from table pending (lower s) = upper_from table pending s.
Proof.
  revert pending. induction s as [|c s IH]; intros pending; [done|].
  cbn [lower upper_from]. rewrite is_ascii_lower.
  destruct (is_ascii c) eqn:Hc.
  - by rewrite upper_lower_ascii, IH.
  - by rewrite lower_ascii_other, IH.
Qed.

Lemma upper_lower table s : upper table (lower s) = upper table s.
Proof. apply upper_from_lower. Qed.

Lemma lower_ascii_newline c :
  Ascii.eqb (lower_ascii c) (ascii_of_N 10) = Ascii.eqb c (ascii_of_N 10).
Proof. by destruct c as [[] [] [] [] [] [] [] []]. Qed.

Lemma split_lower (s : string) :
  split (ascii_of_N 10) (lower s) = lower <$> split (ascii_of_N 10) s.
Proof.
  induction s as [|c s IH]; [done|].
  change (lower (String c s)) with (String (lower_ascii c) (lower s)).
  cbn [split]. rewrite lower_ascii_newline, IH.
  destruct (Ascii.eqb c (ascii_of_N 10)); [done|].
  pose proof (split_nonempty (ascii_of_N 10) s). by destruct (split (ascii_of_N 10) s).
Qed.

Lemma filter_length_fmap {A B} (f : B → bool) (g : A → B) (l : list A) :
  length (List.filter f (g <$> l)) = length (List.filter (λ x, f (g x)) l).
Proof.
  induction l as [|x l IH]; [done|]. rewrite fmap_cons. cbn [List.filter].
  destruct (f (g x)); cbn [length]; by rewrite IH.
Qed.

(** X28. The counts do not depend on the case of the log: a log and the
    same log in lower case give the same number of lines, of errors and of
    warnings. *)
Theorem analyze_logs_case_insensitive (w : MaintenanceMonitor.world) (now : datetime)
    (log_file lowered content : string) :
  MaintenanceMonitor.logs w log_file = MaintenanceMonitor.Content content →
  MaintenanceMonitor.logs w lowered = MaintenanceMonitor.Content (lower content) →
  ∃ a b,
    MaintenanceMonitor.analyze_logs w now log_file = MaintenanceMonitor.AnalysisSuccess a
    ∧ MaintenanceMonitor.analyze_logs w now lowered = MaintenanceMonitor.AnalysisSuccess b
    ∧ MaintenanceMonitor.total_lines a = MaintenanceMonitor.total_lines b
    ∧ MaintenanceMonitor.errors a = MaintenanceMonitor.errors b
    ∧ MaintenanceMonitor.warnings a = MaintenanceMonitor.warnings b.
Proof.
  intros Hlog Hlow. unfold MaintenanceMonitor.analyze_logs. rewrite Hlog, Hlow.
  eexists _, _. split; [done|]. split; [done|].
  cbn [MaintenanceMonitor.total_lines MaintenanceMonitor.errors MaintenanceMonitor.warnings].
  rewrite split_lower, length_fmap, !filter_length_fmap.
  unfold MaintenanceMonitor.is_error_line, MaintenanceMonitor.is_warning_line.
  split; [done|]. split; f_equal; apply List.filter_ext; intros line; by rewrite upper_lower.
Qed.

Lemma analyze_logs_case_insensitive_witness :
  ∃ a b,
    MaintenanceMonitor.analyze_logs
      {| MaintenanceMonitor.look := MaintenanceMonitor.look MaintenanceMonitor.server;
         MaintenanceMonitor.logs := λ p,
           if String.eqb p "a.log" then MaintenanceMonitor.Content "Error: x"
           else MaintenanceMonitor.Content (lower "Error: x");
         MaintenanceMonitor.upper_table := MaintenanceMonitor.few_letters |}
      MaintenanceMonitor.a_clock "a.log" = MaintenanceMonitor.AnalysisSuccess a
    ∧ MaintenanceMonitor.analyze_logs
        {| MaintenanceMonitor.look := MaintenanceMonitor.look MaintenanceMonitor.server;
           MaintenanceMonitor.logs := λ p,
             if String.eqb p "a.log" then MaintenanceMonitor.Content "Error: x"
             else MaintenanceMonitor.Content (lower "Error: x");
           MaintenanceMonitor.upper_table := MaintenanceMonitor.few_letters |}
        MaintenanceMonitor.a_clock "b.log" = MaintenanceMonitor.AnalysisSuccess b
    ∧ MaintenanceMonitor.errors a = MaintenanceMonitor.errors b.
Proof.
  destruct (analyze_logs_case_insensitive
    {| MaintenanceMonitor.look := MaintenanceMonitor.look MaintenanceMonitor.server;
       MaintenanceMonitor.logs := λ p,
         if String.eqb p "a.log" then MaintenanceMonitor.Content "Error: x"
         else MaintenanceMonitor.Content (lower "Error: x");
       MaintenanceMonitor.upper_table := MaintenanceMonitor.few_letters |}
    MaintenanceMonitor.a_clock "a.log" "b.log" "Error: x" eq_refl eq_refl)
    as (a & b & Ha & Hb & _ & He & _).
  exists a, b. split; [exact Ha|]. split; [exact Hb|exact He].
Defined.

(* ===================================================================== *)
(** ** The configuration *)
(* ===================================================================== *)

(** X29. [load_config] raises exactly when EXECUTION_TIMEOUT or
    MAX_EXECUTION_TIME (300 and 600 when unset) is not a number. Otherwise
    the key is the value of OPENAI_API_KEY, if any, and docker and
    sandboxing are each enabled exactly when their variable is unset or
    reads "true" in any case; any other value, "1" or "yes" included,
    disables them. *)
Theorem load_config_flags (environ : gmap string string) (int_ : string → result exn Z) :
  (∀ e, Config.load_config environ int_ = Raise e ↔
        int_ (Config.getenv environ "EXECUTION_TIMEOUT" "300") = Raise e
        ∨ (∃ n, int_ (Config.getenv environ "EXECUTION_TIMEOUT" "300") = Ok n)
          ∧ int_ (Config.getenv environ "MAX_EXECUTION_TIME" "600") = Raise e)
  ∧ (∀ c, Config.load_config environ int_ = Ok c →
       Config.openai_api_key c = environ !! "OPENAI_API_KEY"
       ∧ int_ (Config.getenv environ "EXECUTION_TIMEOUT" "300") = Ok (Config.execution_timeout c)
       ∧ (Config.enable_docker c = true ↔
            ∀ v, environ !! "ENABLE_DOCKER" = Some v → lower v = "true")
       ∧ (Config.enable_sandboxing c = true ↔
            ∀ v, environ !! "ENABLE_SANDBOXING" = Some v → lower v = "true")).
Proof.
  unfold Config.load_config, Config.getenv.
  destruct (int_ (default "300" (environ !! "EXECUTION_TIMEOUT"))) as [n|e1] eqn:H1;
    destruct (int_ (default "600" (environ !! "MAX_EXECUTION_TIME"))) as [k|e2] eqn:H2;
    simpl.
  - split.
    + intros e. split; [done|]. by intros [|[_ ?]].
    + intros c [= <-]. simpl. split; [done|]. split; [done|].
      split; rewrite String.eqb_eq.
      * destruct (environ !! "ENABLE_DOCKER") as [v|]; simpl.
        -- split; [by intros ? ? [= <-]|by auto].
        -- split; [done|by intros].
      * destruct (environ !! "ENABLE_SANDBOXING") as [v|]; simpl.
        -- split; [by intros ? ? [= <-]|by auto].
        -- split; [done|by intros].
  - split; [|done]. intros e. split; [intros [= <-]; right; by eauto|].
    by intros [?|[_ [= <-]]].
  - split; [|done]. intros e. split; [intros [= <-]; by left|].
    by intros [[= <-]|[[? ?] _]].
  - split; [|done]. intros e. split; [intros [= <-]; by left|].
    by intros [[= <-]|[[? ?] _]].
Qed.

Lemma load_config_flags_witness :
  ∃ c, Config.load_config {["ENABLE_DOCKER" := "1"; "ENABLE_SANDBOXING" := "TRUE"]}
         Config.plain_int = Ok c
    ∧ Config.enable_docker c = false
    ∧ Config.enable_sandboxing c = true
    ∧ Config.execution_timeout c = 300.
Proof.
  pose (c := {| Config.openai_api_key := None; Config.openai_model := "gpt-4";
                Config.execution_timeout := 300; Config.enable_docker := false;
                Config.deploy_provider := "local";
                Config.deploy_path := "/tmp/gptbuilder_deployments";
                Config.enable_sandboxing := true; Config.max_execution_time := 600;
                Config.log_level := "INFO"; Config.log_file := "gptbuilder.log" |}).
  assert (Config.load_config {["ENABLE_DOCKER" := "1"; "ENABLE_SANDBOXING" := "TRUE"]}
            Config.plain_int = Ok c) as Hload by reflexivity.
  exists c. split; [exact Hload|].
  destruct (proj2 (load_config_flags {["ENABLE_DOCKER" := "1"; "ENABLE_SANDBOXING" := "TRUE"]}
                     Config.plain_int) c Hload) as (_ & _ & _ & Hsand).
  split; [reflexivity|]. split; [|reflexivity].
  apply Hsand. intros v [= <-]. reflexivity.
Defined.

(** X30. A loaded configuration is valid exactly when OPENAI_API_KEY is set
    to a non-empty string, which is exactly when the generator built from it
    has a client. *)
Theorem config_valid_iff_client (environ : gmap string string)
    (int_ : string → result exn Z) (create : CodeGenerator.request → result exn CodeGenerator.response)
    (c : Config.t) :
  Config.load_config environ int_ = Ok c →
  ∃ g, CodeGenerator.__init__
         {| CodeGenerator.environ := environ; CodeGenerator.create := create |}
         (Config.openai_api_key c) (Config.openai_model c) = Ok g
    ∧ (Config.validate_config c = true ↔ is_Some (CodeGenerator.client g))
    ∧ (Config.validate_config c = true ↔
         ∃ ch key, environ !! "OPENAI_API_KEY" = Some (String ch key)).
Proof.
  unfold Config.load_config.
  destruct (int_ (Config.getenv environ "EXECUTION_TIMEOUT" "300")) as [n|]; simpl; [|done].
  destruct (int_ (Config.getenv environ "MAX_EXECUTION_TIME" "600")) as [k|]; simpl; [|done].
  intros [= <-]. unfold CodeGenerator.__init__, CodeGenerator.or_, Config.validate_config.
  simpl. eexists. split; [done|]. simpl.
  destruct (environ !! "OPENAI_API_KEY") as [[|ch key]|]; simpl; split; split;
    try done; try (by intros [? ?]); try (by intros (? & ? & ?)); by eauto.
Qed.

Lemma config_valid_iff_client_witness :
  ∃ c, Config.load_config {["OPENAI_API_KEY" := ""]} Config.plain_int = Ok c
    ∧ Config.validate_config c = false.
Proof.
  pose (c := {| Config.openai_api_key := Some ""; Config.openai_model := "gpt-4";
                Config.execution_timeout := 300; Config.enable_docker := true;
                Config.deploy_provider := "local";
                Config.deploy_path := "/tmp/gptbuilder_deployments";
                Config.enable_sandboxing := true; Config.max_execution_time := 600;
                Config.log_level := "INFO"; Config.log_file := "gptbuilder.log" |}).
  assert (Config.load_config {["OPENAI_API_KEY" := ""]} Config.plain_int = Ok c)
    as Hload by reflexivity.
  exists c. split; [exact Hload|].
  destruct (config_valid_iff_client {["OPENAI_API_KEY" := ""]} Config.plain_int
              (λ _, Raise (Exception "unused")) c Hload) as (g & _ & _ & Hkey).
  destruct (Config.validate_config c) eqn:Hvalid; [|reflexivity].
  destruct (proj1 Hkey eq_refl) as (ch & key & Hset). discriminate Hset.
Defined.
